(** * TFAgent: the validating front-end of [tf_agents/agents/tf_agent.py]

    A shallow embedding of the abstract agent base class: construction,
    the read-only descriptors and the [train] entry point with its three
    input checks, the delegation to the subclass hook and the result check.

    Python objects are modelled by a small universe of values, nested
    structures ([tf.nest]) by a rose tree whose inner nodes remember the
    container they came from, the instance dictionary [self.__dict__] by a
    finite map from attribute names to values, and exceptions by an error
    monad over a world that also records which hooks were invoked. *)

From Stdlib Require Import ZArith List Ascii String DecimalString Lia.
From stdpp Require Import base tactics option list strings gmap.

Open Scope string_scope.
Open Scope list_scope.

(** ** Nested structures *)

Module Nest.

(** The containers [tf.nest] recurses into.  A dict is visited in sorted key
    order; [keys] lists the keys in that order. *)
Inductive container : Type :=
| CTuple
| CList
| CDict (keys : list string)
| CNamedTuple (type_name : string) (fields : list string).

#[global] Instance container_eq_dec : EqDecision container.
Proof. solve_decision. Defined.

#[warnings="-register-all"]
Inductive nest (A : Type) : Type :=
| Leaf (a : A)
| Node (c : container) (items : list (nest A)).

Arguments Leaf {A} a.
Arguments Node {A} c items.

Section Induction.
Context {A : Type} (P : nest A -> Prop).
Hypothesis HLeaf : forall a, P (Leaf a).
Hypothesis HNode : forall c items, Forall P items -> P (Node c items).

Fixpoint nest_rect' (n : nest A) : P n :=
    match n with
    | Leaf a => HLeaf a
    | Node c items =>
        HNode c items
          ((fix go (l : list (nest A)) : Forall P l :=
              match l with
              | [] => List.Forall_nil P
              | x :: l' => @List.Forall_cons _ P x l' (nest_rect' x) (go l')
              end) items)
    end.
End Induction.

(** [tf.nest.flatten]: the leaves, left to right. *)
Fixpoint flatten {A} (n : nest A) : list A :=
  match n with
  | Leaf a => [a]
  | Node _ items => concat (map flatten items)
  end.

(** [tf.nest.map_structure] with a pure function. *)
Fixpoint map_structure {A B} (f : A -> B) (n : nest A) : nest B :=
  match n with
  | Leaf a => Leaf (f a)
  | Node c items => Node c (map (map_structure f) items)
  end.

(** [tf.nest.assert_same_structure] as a test: same containers, same
    arities, leaves against leaves. *)
Fixpoint same_structure {A B} (n : nest A) (m : nest B) : bool :=
  match n, m with
  | Leaf _, Leaf _ => true
  | Node c items, Node c' items' =>
      bool_decide (c = c') &&
      (fix go (l : list (nest A)) (l' : list (nest B)) : bool :=
         match l, l' with
         | [], [] => true
         | x :: l, y :: l' => same_structure x y && go l l'
         | _, _ => false
         end) items items'
  | _, _ => false
  end.

End Nest.

Import Nest.

(** ** Text: what ends up in exception messages *)

Module Text.

(** The newline written ["\n"] in the source. *)
Definition nl : string := String (ascii_of_nat 10) EmptyString.

(** [str(n)] for an integer, which is also what ['%d' % n] prints. *)
Definition str_nat (n : nat) : string := NilZero.string_of_uint (Nat.to_uint n).
Definition str_Z (z : Z) : string := NilZero.string_of_int (Z.to_int z).

(** [x in s] on Python strings. *)
Definition contains (s x : string) : Prop :=
  exists pre post, s = pre +:+ x +:+ post.

Fixpoint starts_with (x s : string) : bool :=
  match x, s with
  | EmptyString, _ => true
  | String a x', String b s' => bool_decide (a = b) && starts_with x' s'
  | String _ _, EmptyString => false
  end.

Fixpoint containsb (s x : string) : bool :=
  starts_with x s ||
  match s with
  | EmptyString => false
  | String _ s' => containsb s' x
  end.

(** [sep.join(l)] is [String.concat sep l]; every joined piece occurs in
    the result. *)
End Text.

Import Text.

(** ** Python values *)

(** The leaves of an experience or of a spec.  Only the static shape is
    consulted by the agent; shapes are fully defined (eager tensors). *)
Inductive leaf : Type :=
| Tensor (dims : list nat)
| TensorSpec (dims : list nat).

(** [t.shape] *)
Definition shape (t : leaf) : list nat :=
  match t with
  | Tensor dims => dims
  | TensorSpec dims => dims
  end.

(** A policy object: the agent only ever reads [trajectory_spec] from it. *)
Record tf_policy : Type := Policy {
  policy_class : string;
  trajectory_spec : nest leaf
}.

Inductive value : Type :=
| VNone
| VBool (b : bool)
| VInt (z : Z)
| VStr (s : string)
| VNest (n : nest leaf)
| VPolicy (p : tf_policy)
| VLossInfo (loss extra : value)
| VObject (type_name repr : string).

(** Modelled from the spec: the [Trajectory] record of
    [tf_agents.environments.trajectory], which is not part of this file.  The
    spec describes it as a record of environment transitions that supports an
    identity/type check; it is a named tuple whose type name is the one
    below, with whatever fields the module declares. *)
Definition Trajectory : string := "Trajectory".

Definition LossInfo : string := "LossInfo".

(** [isinstance(experience, trajectory.Trajectory)], returning the nested
    structure when the test succeeds. *)
Definition as_Trajectory (experience : value) : option (nest leaf) :=
  match experience with
  | VNest (Node (CNamedTuple type_name fields) items) =>
      if bool_decide (type_name = Trajectory)
      then Some (Node (CNamedTuple type_name fields) items)
      else None
  | _ => None
  end.

(** [isinstance(loss_info, LossInfo)]; a [LossInfo] is always a
    [VLossInfo]. *)
Definition is_LossInfo (loss_info : value) : bool :=
  match loss_info with
  | VLossInfo _ _ => true
  | _ => false
  end.

Module Repr.

(** Opening bracket, per-item label and closing bracket of a container's
    [repr]. *)
Definition opening (c : container) : string :=
  match c with
  | CTuple => "("
  | CList => "["
  | CDict _ => "{"
  | CNamedTuple type_name _ => type_name +:+ "("
  end.

Definition label (c : container) (i : nat) : string :=
  match c with
  | CTuple | CList => ""
  | CDict keys => "'" +:+ nth i keys "" +:+ "': "
  | CNamedTuple _ fields => nth i fields "" +:+ "="
  end.

Definition closing (c : container) (arity : nat) : string :=
  match c with
  | CTuple => if Nat.eqb arity 1 then ",)" else ")"
  | CList => "]"
  | CDict _ => "}"
  | CNamedTuple _ _ => ")"
  end.

Definition repr_node (c : container) (rs : list string) : string :=
  opening c +:+
  String.concat ", " (imap (fun i r => label c i +:+ r) rs) +:+
  closing c (length rs).

(** [repr] of a nested structure whose leaves print with [f]. *)
Fixpoint repr_nest {A} (f : A -> string) (n : nest A) : string :=
  match n with
  | Leaf a => f a
  | Node c items => repr_node c (map (repr_nest f) items)
  end.

(** [repr] of a [TensorShape]. *)
Definition repr_shape (s : list nat) : string :=
  "TensorShape([" +:+ String.concat ", " (map str_nat s) +:+ "])".

Definition repr_leaf (t : leaf) : string :=
  match t with
  | Tensor dims => "<tf.Tensor shape=" +:+ repr_shape dims +:+ ">"
  | TensorSpec dims => "TensorSpec(shape=" +:+ repr_shape dims +:+ ")"
  end.

Fixpoint repr_value (v : value) : string :=
  match v with
  | VNone => "None"
  | VBool b => if b then "True" else "False"
  | VInt z => str_Z z
  | VStr s => "'" +:+ s +:+ "'"
  | VNest n => repr_nest repr_leaf n
  | VPolicy p => "<" +:+ policy_class p +:+ " object>"
  | VLossInfo loss extra =>
      "LossInfo(loss=" +:+ repr_value loss +:+
      ", extra=" +:+ repr_value extra +:+ ")"
  | VObject _ repr => repr
  end.

(** [str(v)], as [%s] and [{}] print it. *)
Definition str_value (v : value) : string :=
  match v with
  | VStr s => s
  | _ => repr_value v
  end.

Definition type_name_of (v : value) : string :=
  match v with
  | VNone => "NoneType"
  | VBool _ => "bool"
  | VInt _ => "int"
  | VStr _ => "str"
  | VNest (Leaf (Tensor _)) => "tensorflow.python.framework.ops.Tensor"
  | VNest (Leaf (TensorSpec _)) =>
      "tensorflow.python.framework.tensor_spec.TensorSpec"
  | VNest (Node CTuple _) => "tuple"
  | VNest (Node CList _) => "list"
  | VNest (Node (CDict _) _) => "dict"
  | VNest (Node (CNamedTuple type_name _) _) => type_name
  | VPolicy p => policy_class p
  | VLossInfo _ _ => LossInfo
  | VObject type_name _ => type_name
  end.

(** [str(type(v))] *)
Definition str_type (v : value) : string :=
  "<class '" +:+ type_name_of v +:+ "'>".

(** The printed form of a structure shows the printed form of each of its
    leaves. *)
End Repr.

Import Repr.

(** ** Exceptions, the world and the monad of agent code *)

Inductive exn : Type :=
| TypeError (msg : string)
| ValueError (msg : string)
| AttributeError (msg : string)
| IndexError (msg : string)
| ConfigurationError (msg : string)
| OtherError (type_name msg : string).

Inductive result (A : Type) : Type :=
| Ok (a : A)
| Raise (e : exn).

Arguments Ok {A} a.
Arguments Raise {A} e.

(** What the base class does that an observer can count: attribute
    assignments on [self] and invocations of the subclass hooks. *)
Inductive event : Type :=
| SetAttr (name : string) (v : value)
| CallInitialize
| CallTrain (experience weights train_step_counter : value).

(** [attrs] is [self.__dict__]; [trace] is the history of events. *)
Record world : Type := World {
  attrs : gmap string value;
  trace : list event
}.

Definition M (A : Type) : Type := world -> result A * world.

Definition ret {A} (a : A) : M A := fun w => (Ok a, w).

Definition raise {A} (e : exn) : M A := fun w => (Raise e, w).

Definition bind {A B} (m : M A) (k : A -> M B) : M B :=
  fun w =>
    match m w with
    | (Ok a, w') => k a w'
    | (Raise e, w') => (Raise e, w')
    end.

Declare Scope py_scope.
Delimit Scope py_scope with py.
Notation "x <- m ;; k" := (bind m (fun x => k))
  (at level 100, m at next level, right associativity) : py_scope.
Notation "m ;; k" := (bind m (fun _ => k))
  (at level 100, right associativity) : py_scope.
Open Scope py_scope.

(** The types of the two subclass hooks, as functions on [self.__dict__]. *)
Abbreviation init_hook :=
  (gmap string value -> result value * gmap string value).
Abbreviation train_hook :=
  (value -> value -> value ->
   gmap string value -> result value * gmap string value).

(** [self.name] for an instance attribute. *)
Definition getattr (name : string) : M value :=
  fun w =>
    match attrs w !! name with
    | Some v => (Ok v, w)
    | None =>
        (Raise (AttributeError
                  ("object has no attribute '" +:+ name +:+ "'")), w)
    end.

(** [self.name = v], as an entry of the instance dictionary.  The
    bookkeeping that [tf.Module] keeps on the side for trackable values is
    not modelled. *)
Definition setattr (name : string) (v : value) : M unit :=
  fun w =>
    (Ok tt, {| attrs := <[name := v]> (attrs w);
               trace := trace w ++ [SetAttr name v] |}).

(** [for x in l: f(x)], stopping at the first exception. *)
Fixpoint for_each {A} (f : A -> M unit) (l : list A) : M unit :=
  match l with
  | [] => ret tt
  | x :: l' => f x ;; for_each f l'
  end.

(** ** The helpers of [tf_agents.utils] *)

(** A class as the override check sees it: its name and the names bound in
    its body. *)
Record pyclass : Type := PyClass {
  class_name : string;
  class_members : list string
}.

(** The internal-hook naming convention: a leading underscore. *)
Definition is_hook_name (m : string) : bool := starts_with "_" m.

Definition public_members (base_cls : pyclass) : list string :=
  List.filter (fun m => negb (is_hook_name m)) (class_members base_cls).

Definition overridden_members (base_cls cls : pyclass) : list string :=
  List.filter (fun m => bool_decide (m ∈ class_members cls))
    (public_members base_cls).

(** Modelled from the spec: [common.assert_members_are_not_overridden],
    which lives in [tf_agents/utils/common.py].  Per the spec the concrete
    subclass must not override any of the contract's non-extension methods
    (those not named with the internal-hook naming convention), and a
    violation fails with a configuration error. *)
Definition assert_members_are_not_overridden (base_cls cls : pyclass)
  : M unit :=
  match overridden_members base_cls cls with
  | [] => ret tt
  | overridden =>
      raise (ConfigurationError
               ("Subclasses of " +:+ class_name base_cls +:+
                " cannot override its non-extension members, but " +:+
                class_name cls +:+ " overrides: " +:+
                String.concat ", " overridden))
  end.

(** One tensor against its spec: [num_outer_dims] leading dimensions, then
    exactly the feature shape of the spec. *)
Definition has_outer_dims (num_outer_dims : nat) (t s : leaf) : bool :=
  Nat.eqb (length (shape t)) (num_outer_dims + length (shape s)) &&
  bool_decide (drop num_outer_dims (shape t) = shape s).

(** Modelled from the spec: [nest_utils.is_batched_nested_tensors], which
    lives in [tf_agents/utils/nest_utils.py].  Per the spec every tensor
    must nest-match the spec and carry exactly [num_outer_dims] leading
    outer dimensions beyond the per-field feature shape. *)
Definition is_batched_nested_tensors
    (tensors specs : nest leaf) (num_outer_dims : nat) : bool :=
  same_structure tensors specs &&
  forallb (fun ts => has_outer_dims num_outer_dims ts.1 ts.2)
    (zip (flatten tensors) (flatten specs)).

(** The structure check, in the words of the spec: the experience
    nest-matches the spec and every tensor is shaped batch, time, then the
    feature shape of its spec. *)
Definition batched_with_time (e specs : nest leaf) : Prop :=
  same_structure e specs = true /\
  Forall2 (fun t s => exists batch time, shape t = batch :: time :: shape s)
    (flatten e) (flatten specs).

(** ** The agent base class *)

Module TFAgent.

(** The names bound in the body of [class TFAgent]. *)
Definition TFAgent : pyclass :=
  {| class_name := "TFAgent";
     class_members :=
       ["__init__"; "initialize"; "train"; "time_step_spec"; "action_spec";
        "policy"; "collect_policy"; "collect_data_spec";
        "train_sequence_length"; "debug_summaries";
        "summarize_grads_and_vars"; "_initialize"; "_train"] |}.

(** The instance attributes assigned by the constructor. *)
Definition fields : list string :=
  ["_time_step_spec"; "_action_spec"; "_policy"; "_collect_policy";
   "_train_sequence_length"; "_debug_summaries"; "_summarize_grads_and_vars"].

(** Integers as Python sees them: [bool] is a subclass of [int]. *)
Definition int_of (v : value) : option Z :=
  match v with
  | VInt z => Some z
  | VBool b => Some (Z.b2z b)
  | _ => None
  end.

(** [d != v] for a dimension [d]. *)
Definition dim_ne (d : nat) (v : value) : bool :=
  match int_of v with
  | Some z => negb (Z.of_nat d =? z)%Z
  | None => true
  end.

(** ['%d' % v] *)
Definition format_d (v : value) : M string :=
  match int_of v with
  | Some z => ret (str_Z z)
  | None =>
      raise (TypeError
               ("%d format: a number is required, not " +:+ type_name_of v))
  end.

(** [shape[i]] *)
Definition getitem (s : list nat) (i : nat) : M nat :=
  match s !! i with
  | Some d => ret d
  | None => raise (IndexError "list index out of range")
  end.

(** The three messages of [train], with their arguments filled in. *)
Definition not_trajectory_message (experience : value) : string :=
  "experience must be type Trajectory, saw type: " +:+ str_type experience.

Definition outer_dims_message (debug_str_1 debug_str_2 : nest (list nat))
  : string :=
  "At least one of the tensors in `experience` does not " +:+
  "have two outer dimensions. Tensors should be shaped as " +:+
  "B x T x [F ...]; batch size, time step, and frame." +:+ nl +:+
  "Full shapes of experience tensors:" +:+ nl +:+
  repr_nest repr_shape debug_str_1 +:+ "." +:+ nl +:+
  "Full expected shapes (minus outer dimensions):" +:+ nl +:+
  repr_nest repr_shape debug_str_2 +:+ ".".

Definition time_axis_message
    (found : nat) (required : string) (debug_str : nest (list nat)) : string :=
  "One of the tensors in `experience` has a time axis " +:+
  "dim value '" +:+ str_nat found +:+ "', but we require dim value '" +:+
  required +:+ "'.  " +:+
  "Full shape structure of experience:" +:+ nl +:+
  repr_nest repr_shape debug_str.

Definition not_loss_info_message (loss_info : value) : string :=
  "loss_info is not a subclass of LossInfo: " +:+ str_value loss_info.

(** [TFAgent.__init__], run on an instance of class [cls].  The two
    defaulted arguments are passed explicitly. *)
Definition __init__ (cls : pyclass)
    (time_step_spec action_spec policy collect_policy
     train_sequence_length debug_summaries summarize_grads_and_vars : value)
  : M unit :=
  assert_members_are_not_overridden TFAgent cls ;;
  setattr "_time_step_spec" time_step_spec ;;
  setattr "_action_spec" action_spec ;;
  setattr "_policy" policy ;;
  setattr "_collect_policy" collect_policy ;;
  setattr "_train_sequence_length" train_sequence_length ;;
  setattr "_debug_summaries" debug_summaries ;;
  setattr "_summarize_grads_and_vars" summarize_grads_and_vars.

(** The properties. *)
Definition time_step_spec : M value := getattr "_time_step_spec".
Definition action_spec : M value := getattr "_action_spec".
Definition policy : M value := getattr "_policy".
Definition collect_policy : M value := getattr "_collect_policy".
Definition train_sequence_length : M value := getattr "_train_sequence_length".
Definition debug_summaries : M value := getattr "_debug_summaries".
Definition summarize_grads_and_vars : M value :=
  getattr "_summarize_grads_and_vars".

(** [p.trajectory_spec] on whatever object [p] is. *)
Definition get_trajectory_spec (p : value) : M (nest leaf) :=
  match p with
  | VPolicy p => ret (trajectory_spec p)
  | _ =>
      raise (AttributeError
               ("'" +:+ type_name_of p +:+
                "' object has no attribute 'trajectory_spec'"))
  end.

Definition collect_data_spec : M (nest leaf) :=
  p <- collect_policy ;;
  get_trajectory_spec p.

(** The closure [check_shape] of [train]; [experience] is the captured
    variable. *)
Definition check_shape (experience : nest leaf) (t : leaf) : M unit :=
  d <- getitem (shape t) 1 ;;
  required <- train_sequence_length ;;
  if dim_ne d required then
    let debug_str := map_structure shape experience in
    found <- getitem (shape t) 1 ;;
    required <- train_sequence_length ;;
    required_str <- format_d required ;;
    raise (ValueError (time_axis_message found required_str debug_str))
  else ret tt.

Section Hooks.

(** The abstract methods, supplied by the concrete subclass.  A hook sees
    and may update the instance dictionary, and returns or raises. *)
Variable _initialize : init_hook.
Variable _train : train_hook.

Definition call_initialize : M value :=
  fun w =>
    let (r, a) := _initialize (attrs w) in
    (r, {| attrs := a; trace := trace w ++ [CallInitialize] |}).

Definition call_train (experience weights train_step_counter : value)
  : M value :=
  fun w =>
    let (r, a) := _train experience weights train_step_counter (attrs w) in
    (r, {| attrs := a;
           trace := trace w ++
                    [CallTrain experience weights train_step_counter] |}).

Definition initialize : M value := call_initialize.

(** [weights] and [train_step_counter] default to [None]. *)
Definition train (experience weights train_step_counter : value) : M value :=
  match as_Trajectory experience with
  | None => raise (ValueError (not_trajectory_message experience))
  | Some e =>
      spec <- collect_data_spec ;;
      (if negb (is_batched_nested_tensors e spec 2) then
         let debug_str_1 := map_structure shape e in
         spec <- collect_data_spec ;;
         let debug_str_2 := map_structure shape spec in
         raise (ValueError (outer_dims_message debug_str_1 debug_str_2))
       else ret tt) ;;
      required <- train_sequence_length ;;
      match required with
      | VNone => ret tt
      | _ => for_each (check_shape e) (flatten e)
      end ;;
      loss_info <- call_train experience weights train_step_counter ;;
      if negb (is_LossInfo loss_info) then
        raise (TypeError (not_loss_info_message loss_info))
      else ret loss_info
  end.

End Hooks.

(** The checks of [train] alone: everything [train] does before it calls
    the hook.  [train] is [validate] followed by the delegation and the
    result check (lemma [train_validate]). *)
Definition validate (experience : value) : M unit :=
  match as_Trajectory experience with
  | None => raise (ValueError (not_trajectory_message experience))
  | Some e =>
      spec <- collect_data_spec ;;
      (if negb (is_batched_nested_tensors e spec 2) then
         let debug_str_1 := map_structure shape e in
         spec <- collect_data_spec ;;
         let debug_str_2 := map_structure shape spec in
         raise (ValueError (outer_dims_message debug_str_1 debug_str_2))
       else ret tt) ;;
      required <- train_sequence_length ;;
      match required with
      | VNone => ret tt
      | _ => for_each (check_shape e) (flatten e)
      end
  end.

(** What [check_shape] does to one tensor, once the required length is
    known. *)
Definition check_shape_outcome
    (e : nest leaf) (required : value) (t : leaf) : result unit :=
  match shape t !! 1 with
  | None => Raise (IndexError "list index out of range")
  | Some d =>
      if dim_ne d required then
        match int_of required with
        | Some z =>
            Raise (ValueError
                     (time_axis_message d (str_Z z) (map_structure shape e)))
        | None =>
            Raise (TypeError
                     ("%d format: a number is required, not " +:+
                      type_name_of required))
        end
      else Ok tt
  end.

(** A caller that trains on one batch after another and carries on when
    [train] raises. *)
Fixpoint train_all (_train : train_hook)
    (batches : list (value * value * value)) (w : world) : world :=
  match batches with
  | [] => w
  | (experience, weights, train_step_counter) :: rest =>
      train_all _train rest
        (train _train experience weights train_step_counter w).2
  end.

(** What the base class asks of a subclass hook: it keeps its hands off the
    attributes that the base constructor assigned. *)
Definition keeps_fields (_train : train_hook) : Prop :=
  forall experience weights train_step_counter a name,
    name ∈ fields ->
    (_train experience weights train_step_counter a).2 !! name = a !! name.

(** Whether an event is an attribute assignment. *)
Definition is_SetAttr (ev : event) : bool :=
  match ev with
  | SetAttr _ _ => true
  | _ => false
  end.

End TFAgent.

(** ** A concrete agent, used to exercise the definitions *)

Module Example.

Import TFAgent.

Definition trajectory_fields : list string :=
  ["step_type"; "observation"; "action"; "policy_info"; "next_step_type";
   "reward"; "discount"].

(** A trajectory whose observation has the given shape and whose other
    tensors carry [outer] dimensions only. *)
Definition make_trajectory (mk : list nat -> leaf)
    (outer observation : list nat) : nest leaf :=
  Node (CNamedTuple Trajectory trajectory_fields)
    [Leaf (mk outer); Leaf (mk observation); Leaf (mk outer);
     Node CTuple []; Leaf (mk outer); Leaf (mk outer); Leaf (mk outer)].

Definition data_spec : nest leaf := make_trajectory TensorSpec [] [8].

Definition greedy : tf_policy :=
  {| policy_class := "GreedyPolicy"; trajectory_spec := data_spec |}.

Definition explorer : tf_policy :=
  {| policy_class := "EpsilonGreedyPolicy"; trajectory_spec := data_spec |}.

(** Experience shaped [[4, 2, 8]], [[4, 3, 8]] and, one dimension short,
    [[4, 8]]. *)
Definition batch_4_2 : value := VNest (make_trajectory Tensor [4; 2] [4; 2; 8]).
Definition batch_4_3 : value := VNest (make_trajectory Tensor [4; 3] [4; 3; 8]).
Definition batch_4 : value := VNest (make_trajectory Tensor [4] [4; 8]).

Definition loss_1_25 : value :=
  VLossInfo (VObject "float" "1.25") (VNest (Node (CDict []) [])).

(** A well-behaved subclass: its hooks keep a step count of their own and
    leave the attributes of the base class alone. *)
Definition dqn : pyclass :=
  {| class_name := "DqnAgent";
     class_members := ["__init__"; "_initialize"; "_train"] |}.

Definition dqn_initialize (a : gmap string value)
  : result value * gmap string value :=
  (Ok VNone, <["_steps" := VInt 0]> a).

Definition dqn_train (experience weights train_step_counter : value)
    (a : gmap string value) : result value * gmap string value :=
  match a !! "_steps" with
  | Some (VInt n) => (Ok loss_1_25, <["_steps" := VInt (n + 1)]> a)
  | _ => (Ok loss_1_25, <["_steps" := VInt 1]> a)
  end.

(** A subclass whose hook returns the raw loss. *)
Definition raw_loss_train (experience weights train_step_counter : value)
    (a : gmap string value) : result value * gmap string value :=
  (Ok (VObject "float" "1.25"), a).

(** A policy that collects wider observations. *)
Definition wide : tf_policy :=
  {| policy_class := "WidePolicy";
     trajectory_spec := make_trajectory TensorSpec [] [16] |}.

(** Two subclasses whose hook reassigns an attribute of the base class:
    the first swaps the collect policy, the second changes the required
    sequence length. *)
Definition policy_swapping_train
    (experience weights train_step_counter : value)
    (a : gmap string value) : result value * gmap string value :=
  (Ok loss_1_25, <["_collect_policy" := VPolicy wide]> a).

Definition length_changing_train
    (experience weights train_step_counter : value)
    (a : gmap string value) : result value * gmap string value :=
  (Ok loss_1_25, <["_train_sequence_length" := VInt 3]> a).

(** A subclass that rebinds [train]. *)
Definition rogue : pyclass :=
  {| class_name := "RogueAgent";
     class_members := ["__init__"; "train"; "_initialize"; "_train"] |}.

Definition fresh : world := {| attrs := ∅; trace := [] |}.

(** The world after constructing an agent of class [dqn] with the given
    [train_sequence_length]. *)
Definition constructed (train_sequence_length : value) : world :=
  (__init__ dqn (VNest data_spec) (VNest (Leaf (TensorSpec [])))
     (VPolicy greedy) (VPolicy explorer) train_sequence_length
     (VBool false) (VBool false) fresh).2.

End Example.

(** ** The agent over its lifetime *)

Module Lifetime.

Import TFAgent Example.

(** One call made by a user of a constructed agent. *)
Inductive call : Type :=
| Initialize
| Train (experience weights train_step_counter : value).

(** A user that makes one call after another and carries on when a call
    raises. *)
Fixpoint run (_initialize : init_hook) (_train : train_hook)
    (calls : list call) (w : world) : world :=
  match calls with
  | [] => w
  | Initialize :: rest =>
      run _initialize _train rest (initialize _initialize w).2
  | Train experience weights train_step_counter :: rest =>
      run _initialize _train rest
        (train _train experience weights train_step_counter w).2
  end.

(** The counterpart of [keeps_fields] for the other hook. *)
Definition initialize_keeps_fields (_initialize : init_hook) : Prop :=
  forall a name, name ∈ fields -> (_initialize a).2 !! name = a !! name.

(** [train_sequence_length] as the constructor documents it: an integer or
    [None]. *)
Definition length_value (required : option Z) : value :=
  match required with
  | Some n => VInt n
  | None => VNone
  end.

Definition time_axis_is (n : Z) (t : leaf) : bool :=
  match shape t !! 1 with
  | Some d => (Z.of_nat d =? n)%Z
  | None => false
  end.

(** The three checks of [train] as one test, for an agent whose collect
    policy is [p] and whose [train_sequence_length] is [required]. *)
Definition accepts (p : tf_policy) (required : option Z) (experience : value)
  : bool :=
  match as_Trajectory experience with
  | None => false
  | Some e =>
      is_batched_nested_tensors e (trajectory_spec p) 2 &&
      match required with
      | None => true
      | Some n => forallb (time_axis_is n) (flatten e)
      end
  end.

(** The hook calls that a sequence of user calls gives rise to. *)
Definition hook_calls (p : tf_policy) (required : option Z)
    (calls : list call) : list event :=
  flat_map
    (fun c =>
       match c with
       | Initialize => [CallInitialize]
       | Train experience weights train_step_counter =>
           if accepts p required experience
           then [CallTrain experience weights train_step_counter]
           else []
       end) calls.

(** Experience whose tensors disagree on the time axis: 2, then 3, then 5. *)
Definition mixed_time : nest leaf :=
  Node (CNamedTuple Trajectory trajectory_fields)
    [Leaf (Tensor [4; 2]); Leaf (Tensor [4; 3; 8]); Leaf (Tensor [4; 5]);
     Node CTuple []; Leaf (Tensor [4; 2]); Leaf (Tensor [4; 2]);
     Leaf (Tensor [4; 2])].

Definition batch_mixed_time : value := VNest mixed_time.

(** A hook that applies its step and then fails. *)
Definition failing_train (experience weights train_step_counter : value)
    (a : gmap string value) : result value * gmap string value :=
  (Raise (OtherError "ResourceExhaustedError" "out of memory"),
   <["_steps" := VInt 1]> a).

(** A hook that applies its step and returns the raw loss. *)
Definition stepping_raw_loss_train
    (experience weights train_step_counter : value)
    (a : gmap string value) : result value * gmap string value :=
  (Ok (VObject "float" "1.25"), <["_steps" := VInt 1]> a).

(** An agent of class [dqn] constructed with the given collect policy. *)
Definition constructed_with (collect_policy train_sequence_length : value)
  : world :=
  (__init__ dqn (VNest data_spec) (VNest (Leaf (TensorSpec [])))
     (VPolicy greedy) collect_policy train_sequence_length
     (VBool false) (VBool false) fresh).2.

End Lifetime.

(** ** Facts about [Nest] *)

Module NestFacts.

Lemma flatten_map_structure {A B} (f : A -> B) (n : nest A) :
  flatten (map_structure f n) = map f (flatten n).
Proof.
  induction n as [a | c items IH] using nest_rect'; [reflexivity |].
  cbn [map_structure flatten].
  induction IH as [| x l Hx _ IHl]; [reflexivity |].
  cbn [map concat]. rewrite Hx, IHl, map_app. reflexivity.
Qed.

Lemma same_structure_flatten_length {A B} (n : nest A) (m : nest B) :
  same_structure n m = true -> length (flatten n) = length (flatten m).
Proof.
  revert m. induction n as [a | c items IH] using nest_rect';
    intros [b | c' items']; cbn [same_structure]; try discriminate.
  - reflexivity.
  - intros H. apply andb_prop in H as [_ H]. cbn [flatten].
    revert items' H. induction IH as [| x l Hx _ IHl];
      intros [| y l']; try discriminate; [reflexivity |].
    intros H. apply andb_prop in H as [Hxy H].
    cbn [map concat]. rewrite !length_app.
    rewrite (Hx _ Hxy), (IHl _ H). reflexivity.
Qed.

End NestFacts.

Import NestFacts.

(** ** Facts about [Text] *)

Module TextFacts.

Lemma string_app_nil_l (s : string) : "" +:+ s = s.
Proof. reflexivity. Qed.

Lemma string_app_cons (a : ascii) (s t : string) :
  String a s +:+ t = String a (s +:+ t).
Proof. reflexivity. Qed.

Lemma string_app_assoc (a b c : string) : (a +:+ b) +:+ c = a +:+ b +:+ c.
Proof.
  induction a as [| ch a IH]; [reflexivity |].
  rewrite !string_app_cons. now rewrite IH.
Qed.

Lemma string_app_nil_r (a : string) : a +:+ "" = a.
Proof.
  induction a as [| ch a IH]; [reflexivity |].
  rewrite string_app_cons. now rewrite IH.
Qed.

Lemma contains_refl s : contains s s.
Proof. exists "", "". now rewrite string_app_nil_l, string_app_nil_r. Qed.

Lemma contains_app_l s t x : contains s x -> contains (s +:+ t) x.
Proof.
  intros (pre & post & ->). exists pre, (post +:+ t).
  now rewrite !string_app_assoc.
Qed.

Lemma contains_app_r s t x : contains t x -> contains (s +:+ t) x.
Proof.
  intros (pre & post & ->). exists (s +:+ pre), post.
  now rewrite !string_app_assoc.
Qed.

Lemma contains_trans s t x : contains s t -> contains t x -> contains s x.
Proof.
  intros (p1 & q1 & ->) (p2 & q2 & ->).
  apply contains_app_r, contains_app_l, contains_app_r, contains_app_l,
    contains_refl.
Qed.

Lemma starts_with_sound x s :
  starts_with x s = true -> exists post, s = x +:+ post.
Proof.
  revert s. induction x as [| a x IH]; intros s H; [now exists s |].
  destruct s as [| b s]; [discriminate |]. cbn in H.
  apply andb_prop in H as [Hab H]. apply bool_decide_eq_true in Hab as ->.
  destruct (IH _ H) as [post ->]. now exists post.
Qed.

Lemma containsb_sound s x : containsb s x = true -> contains s x.
Proof.
  induction s as [| a s IH]; cbn [containsb]; intros H.
  - rewrite orb_false_r in H. apply starts_with_sound in H as [post ->].
    now exists "", post.
  - apply orb_prop in H as [H | H].
    + apply starts_with_sound in H as [post ->]. now exists "", post.
    + destruct (IH H) as (pre & post & ->). now exists (String a pre), post.
Qed.

Lemma starts_with_complete x post : starts_with x (x +:+ post) = true.
Proof.
  induction x as [| a x IH]; [reflexivity |].
  rewrite string_app_cons. cbn [starts_with].
  rewrite bool_decide_eq_true_2 by reflexivity. exact IH.
Qed.

Lemma containsb_complete s x : contains s x -> containsb s x = true.
Proof.
  intros (pre & post & ->). induction pre as [| a pre IH].
  - rewrite string_app_nil_l. destruct (x +:+ post) eqn:E; cbn [containsb];
      rewrite <- E, starts_with_complete; reflexivity.
  - rewrite string_app_cons. cbn [containsb]. rewrite IH. apply orb_true_r.
Qed.

Lemma contains_concat sep (l : list string) x :
  In x l -> contains (String.concat sep l) x.
Proof.
  induction l as [| y l IH]; [intros [] |].
  intros [-> | Hin].
  - destruct l; cbn [String.concat]; [apply contains_refl |].
    apply contains_app_l, contains_refl.
  - destruct l as [| z l]; [destruct Hin |].
    cbn [String.concat]. apply contains_app_r, contains_app_r, IH, Hin.
Qed.

End TextFacts.

Import TextFacts.

(** ** Facts about [Repr] *)

Module ReprFacts.

Lemma contains_repr_node c (rs : list string) r :
  In r rs -> contains (repr_node c rs) r.
Proof.
  intros Hin. apply list_elem_of_In, list_elem_of_lookup in Hin as [i Hi].
  unfold repr_node. apply contains_app_r, contains_app_l.
  apply contains_trans with (label c i +:+ r).
  - apply contains_concat, list_elem_of_In, list_elem_of_lookup.
    exists i. rewrite list_lookup_imap, Hi. reflexivity.
  - apply contains_app_r, contains_refl.
Qed.

Lemma contains_repr_nest {A} (f : A -> string) (n : nest A) a :
  In a (flatten n) -> contains (repr_nest f n) (f a).
Proof.
  induction n as [b | c items IH] using nest_rect'; cbn [flatten repr_nest].
  - intros [-> | []]. apply contains_refl.
  - intros Hin. apply in_concat in Hin as (l & Hl & Hal).
    apply in_map_iff in Hl as (x & <- & Hx).
    rewrite List.Forall_forall in IH.
    apply contains_trans with (repr_nest f x).
    + apply contains_repr_node, in_map, Hx.
    + apply IH; assumption.
Qed.

(** The printed shape structure of a nest shows the shape of each leaf. *)
Lemma contains_shapes (n : nest leaf) t :
  In t (flatten n) ->
  contains (repr_nest repr_shape (map_structure shape n))
    (repr_shape (shape t)).
Proof.
  intros H. apply contains_repr_nest.
  rewrite flatten_map_structure. now apply in_map.
Qed.

End ReprFacts.

Import ReprFacts.

(** ** Facts about the monad and the helpers *)

Module MonadFacts.

Lemma bind_ok {A B} (m : M A) (k : A -> M B) w a w' :
  m w = (Ok a, w') -> bind m k w = k a w'.
Proof. intros H. unfold bind. now rewrite H. Qed.

Lemma bind_raise {A B} (m : M A) (k : A -> M B) w e w' :
  m w = (Raise e, w') -> bind m k w = (Raise e, w').
Proof. intros H. unfold bind. now rewrite H. Qed.

Lemma bind_assoc {A B C} (m : M A) (k : A -> M B) (h : B -> M C) w :
  bind (bind m k) h w = bind m (fun a => bind (k a) h) w.
Proof. unfold bind. destruct (m w) as [[a | e] w']; reflexivity. Qed.

Lemma bind_ext {A B} (m : M A) (k k' : A -> M B) w :
  (forall a w', k a w' = k' a w') -> bind m k w = bind m k' w.
Proof.
  intros H. unfold bind. destruct (m w) as [[a | e] w']; [apply H | reflexivity].
Qed.

Lemma getattr_some name v w :
  attrs w !! name = Some v -> getattr name w = (Ok v, w).
Proof. intros H. unfold getattr. now rewrite H. Qed.

Lemma getattr_world name w : (getattr name w).2 = w.
Proof. unfold getattr. now destruct (attrs w !! name). Qed.

Lemma for_each_world {A} (f : A -> M unit) (l : list A) w :
  (forall x w, (f x w).2 = w) -> (for_each f l w).2 = w.
Proof.
  intros Hf. induction l as [| x l IH]; [reflexivity |].
  cbn [for_each]. unfold bind. specialize (Hf x w).
  destruct (f x w) as [[[] | e] w']; cbn in Hf; subst w'; [exact IH | reflexivity].
Qed.

Lemma for_each_ok {A} (f : A -> M unit) (l : list A) w :
  Forall (fun x => f x w = (Ok tt, w)) l -> for_each f l w = (Ok tt, w).
Proof.
  induction 1 as [| x l Hx _ IH]; [reflexivity |].
  cbn [for_each]. now rewrite (bind_ok _ _ _ _ _ Hx).
Qed.

Lemma for_each_first_failure {A} (f : A -> M unit) l1 x l2 w e :
  Forall (fun y => f y w = (Ok tt, w)) l1 ->
  f x w = (Raise e, w) ->
  for_each f (l1 ++ x :: l2) w = (Raise e, w).
Proof.
  intros Hl1 Hx. induction Hl1 as [| y l1 Hy _ IH]; cbn [app for_each].
  - now rewrite (bind_raise _ _ _ _ _ Hx).
  - now rewrite (bind_ok _ _ _ _ _ Hy).
Qed.

(** A list with an element satisfying a decidable property splits at the
    first such element. *)
Lemma for_each_raise {A} (f : A -> M unit) (l : list A) w err :
  (forall x w, (f x w).2 = w) ->
  (for_each f l w).1 = Raise err ->
  exists x, In x l /\ (f x w).1 = Raise err.
Proof.
  intros Hf. induction l as [| x l IH]; [discriminate |].
  cbn [for_each]. unfold bind. pose proof (Hf x w) as Hx.
  destruct (f x w) as [[[] | e] w'] eqn:E; cbn in Hx; subst w'.
  - intros H. destruct (IH H) as (y & Hy & Hfy). exists y.
    split; [now right | exact Hfy].
  - cbn. intros [= ->]. exists x. split; [now left |]. now rewrite E.
Qed.

Lemma first_such {A} (P : A -> bool) (l : list A) :
  Exists (fun x => P x = true) l ->
  exists l1 x l2,
    l = l1 ++ x :: l2 /\ Forall (fun y => P y = false) l1 /\ P x = true.
Proof.
  induction 1 as [x l Hx | x l _ IH].
  - exists [], x, l. repeat split; [constructor | exact Hx].
  - destruct (P x) eqn:Hx.
    + exists [], x, l. repeat split; [constructor | exact Hx].
    + destruct IH as (l1 & y & l2 & -> & Hl1 & Hy).
      exists (x :: l1), y, l2. repeat split; [| exact Hy].
      constructor; assumption.
Qed.

Lemma has_outer_dims_two t s :
  has_outer_dims 2 t s = true <->
  exists batch time, shape t = batch :: time :: shape s.
Proof.
  unfold has_outer_dims. split.
  - intros H. apply andb_prop in H as [Hlen Hdrop].
    apply Nat.eqb_eq in Hlen. apply bool_decide_eq_true in Hdrop.
    destruct (shape t) as [| b [| tm rest]]; cbn in Hlen; try lia.
    exists b, tm. rewrite <- Hdrop. reflexivity.
  - intros (b & tm & ->). apply andb_true_intro. split.
    + apply Nat.eqb_eq. reflexivity.
    + apply bool_decide_eq_true. reflexivity.
Qed.

Lemma forallb_zip {A B} (f : A * B -> bool) (l : list A) (l' : list B) :
  length l = length l' ->
  forallb f (zip l l') = true <-> Forall2 (fun x y => f (x, y) = true) l l'.
Proof.
  revert l'. induction l as [| x l IH]; intros [| y l'] Hlen;
    try discriminate.
  - split; [constructor | reflexivity].
  - cbn [zip zip_with forallb]. injection Hlen as Hlen.
    rewrite andb_true_iff, (IH _ Hlen). split.
    + intros [Hxy H]. now constructor.
    + intros H. inversion H; subst. now split.
Qed.

Lemma is_batched_two e specs :
  is_batched_nested_tensors e specs 2 = true <-> batched_with_time e specs.
Proof.
  unfold is_batched_nested_tensors, batched_with_time.
  rewrite andb_true_iff. split; intros [Hs H]; split; try exact Hs.
  - apply forallb_zip in H; [| now apply same_structure_flatten_length].
    eapply Forall2_impl; [exact H |]. intros t s Hts.
    now apply has_outer_dims_two.
  - apply forallb_zip; [now apply same_structure_flatten_length |].
    eapply Forall2_impl; [exact H |]. intros t s Hts.
    now apply has_outer_dims_two.
Qed.

Lemma is_batched_rank e specs :
  is_batched_nested_tensors e specs 2 = true ->
  Forall (fun t => is_Some (shape t !! 1)) (flatten e).
Proof.
  intros H. apply is_batched_two in H as [_ H].
  induction H as [| t s l l' (b & tm & Hts) _ IH]; constructor; [| exact IH].
  rewrite Hts. now exists tm.
Qed.

End MonadFacts.

Import MonadFacts.

(** ** Facts about the agent *)

Module TFAgentFacts.

Import TFAgent.

Lemma collect_data_spec_world w : (collect_data_spec w).2 = w.
Proof.
  unfold collect_data_spec, collect_policy, bind, getattr.
  destruct (attrs w !! "_collect_policy") as [[] |]; reflexivity.
Qed.

Lemma collect_data_spec_ok w p :
  attrs w !! "_collect_policy" = Some (VPolicy p) ->
  collect_data_spec w = (Ok (trajectory_spec p), w).
Proof.
  intros H. unfold collect_data_spec, collect_policy.
  now rewrite (bind_ok _ _ _ _ _ (getattr_some _ _ _ H)).
Qed.

Lemma check_shape_eq e t w required :
  attrs w !! "_train_sequence_length" = Some required ->
  check_shape e t w = (check_shape_outcome e required t, w).
Proof.
  intros H. unfold check_shape, check_shape_outcome, getitem.
  destruct (shape t !! 1) as [d |]; [| reflexivity].
  rewrite (bind_ok _ _ w d w eq_refl).
  unfold train_sequence_length.
  rewrite (bind_ok _ _ _ _ _ (getattr_some _ _ _ H)).
  destruct (dim_ne d required); [| reflexivity].
  rewrite (bind_ok _ _ w d w eq_refl).
  rewrite (bind_ok _ _ _ _ _ (getattr_some _ _ _ H)).
  unfold format_d. destruct (int_of required); reflexivity.
Qed.

Lemma check_shape_world e t w : (check_shape e t w).2 = w.
Proof.
  destruct (attrs w !! "_train_sequence_length") as [required |] eqn:H.
  - now rewrite (check_shape_eq _ _ _ _ H).
  - unfold check_shape, getitem, train_sequence_length, bind, getattr.
    destruct (shape t !! 1); cbn; rewrite ?H; reflexivity.
Qed.

Lemma check_shape_no_IndexError e t d w msg :
  shape t !! 1 = Some d ->
  (check_shape e t w).1 <> Raise (IndexError msg).
Proof.
  intros Hd.
  destruct (attrs w !! "_train_sequence_length") as [required |] eqn:Hr.
  - rewrite (check_shape_eq _ _ _ _ Hr). unfold check_shape_outcome.
    rewrite Hd. cbn. destruct (dim_ne d required); [| discriminate].
    destruct (int_of required); discriminate.
  - unfold check_shape, getitem. rewrite Hd.
    rewrite (bind_ok _ _ w d w eq_refl).
    unfold train_sequence_length, bind, getattr. rewrite Hr. discriminate.
Qed.

Lemma validate_world experience w : (validate experience w).2 = w.
Proof.
  unfold validate. destruct (as_Trajectory experience) as [e |];
    [| reflexivity].
  unfold bind. pose proof (collect_data_spec_world w) as Hc.
  destruct (collect_data_spec w) as [[spec | err] w1]; cbn in Hc; subst w1;
    [| reflexivity].
  destruct (is_batched_nested_tensors e spec 2); cbn [negb].
  - cbn [ret]. unfold train_sequence_length.
    pose proof (getattr_world "_train_sequence_length" w) as Hg.
    destruct (getattr "_train_sequence_length" w) as [[required | err] w1];
      cbn in Hg; subst w1; [| reflexivity].
    destruct required; try reflexivity;
      apply for_each_world, check_shape_world.
  - pose proof (collect_data_spec_world w) as Hc.
    destruct (collect_data_spec w) as [[spec' | err] w1]; cbn in Hc;
      subst w1; reflexivity.
Qed.

Lemma validate_not_trajectory experience w :
  as_Trajectory experience = None ->
  validate experience w =
  (Raise (ValueError (not_trajectory_message experience)), w).
Proof. intros H. unfold validate. now rewrite H. Qed.

Lemma validate_not_batched experience e p w :
  as_Trajectory experience = Some e ->
  attrs w !! "_collect_policy" = Some (VPolicy p) ->
  is_batched_nested_tensors e (trajectory_spec p) 2 = false ->
  validate experience w =
  (Raise (ValueError
            (outer_dims_message (map_structure shape e)
               (map_structure shape (trajectory_spec p)))), w).
Proof.
  intros He Hp Hb. unfold validate. rewrite He.
  rewrite (bind_ok _ _ _ _ _ (collect_data_spec_ok _ _ Hp)), Hb. cbn [negb].
  rewrite bind_assoc.
  now rewrite (bind_ok _ _ _ _ _ (collect_data_spec_ok _ _ Hp)).
Qed.

Lemma validate_batched experience e p required w :
  as_Trajectory experience = Some e ->
  attrs w !! "_collect_policy" = Some (VPolicy p) ->
  is_batched_nested_tensors e (trajectory_spec p) 2 = true ->
  attrs w !! "_train_sequence_length" = Some required ->
  validate experience w =
  match required with
  | VNone => (Ok tt, w)
  | _ => for_each (check_shape e) (flatten e) w
  end.
Proof.
  intros He Hp Hb Hr. unfold validate. rewrite He.
  rewrite (bind_ok _ _ _ _ _ (collect_data_spec_ok _ _ Hp)), Hb. cbn [negb].
  rewrite (bind_ok _ _ w tt w eq_refl).
  unfold train_sequence_length.
  rewrite (bind_ok _ _ _ _ _ (getattr_some _ _ _ Hr)).
  destruct required; reflexivity.
Qed.

(** No check of [validate] can fail with an [IndexError]: [check_shape]
    runs only on tensors that the structure check has seen to carry two
    outer dimensions. *)
Lemma validate_no_IndexError experience w msg :
  (validate experience w).1 <> Raise (IndexError msg).
Proof.
  unfold validate. destruct (as_Trajectory experience) as [e |];
    [| discriminate].
  unfold bind at 1. unfold collect_data_spec at 1, collect_policy, bind at 1.
  unfold getattr at 1.
  destruct (attrs w !! "_collect_policy") as [cp |] eqn:Hp; [| discriminate].
  destruct cp as [| | | | | p | |]; try discriminate. cbn [get_trajectory_spec ret].
  destruct (is_batched_nested_tensors e (trajectory_spec p) 2) eqn:Hb;
    cbn [negb].
  - rewrite (bind_ok _ _ w tt w eq_refl). unfold bind, train_sequence_length.
    unfold getattr at 1.
    destruct (attrs w !! "_train_sequence_length") as [required |] eqn:Hr;
      [| discriminate].
    assert (Hfe : (for_each (check_shape e) (flatten e) w).1 <>
                  Raise (IndexError msg)).
    { intros H. apply for_each_raise in H as (t & Ht & Hraise);
        [| intros; apply check_shape_world].
      pose proof (is_batched_rank _ _ Hb) as Hrank.
      rewrite List.Forall_forall in Hrank. destruct (Hrank t Ht) as [d Hd].
      exact (check_shape_no_IndexError _ _ _ _ _ Hd Hraise). }
    destruct required; try exact Hfe. discriminate.
  - rewrite bind_assoc.
    rewrite (bind_ok _ _ _ _ _ (collect_data_spec_ok _ _ Hp)). discriminate.
Qed.

Section WithHook.

Variable _train : train_hook.

(** [train] is [validate], then the delegation and the result check. *)
Lemma train_validate experience weights train_step_counter w :
  train _train experience weights train_step_counter w =
  (validate experience ;;
   loss_info <- call_train _train experience weights train_step_counter ;;
   if negb (is_LossInfo loss_info) then
     raise (TypeError (not_loss_info_message loss_info))
   else ret loss_info) w.
Proof.
  unfold train, validate.
  destruct (as_Trajectory experience) as [e |]; [| reflexivity].
  rewrite bind_assoc. apply bind_ext. intros spec w1.
  rewrite bind_assoc. apply bind_ext. intros _ w2.
  rewrite bind_assoc. reflexivity.
Qed.

Lemma train_rejected experience weights train_step_counter w err :
  validate experience w = (Raise err, w) ->
  train _train experience weights train_step_counter w = (Raise err, w).
Proof.
  intros H. rewrite train_validate. now rewrite (bind_raise _ _ _ _ _ H).
Qed.

Lemma train_accepted experience weights train_step_counter w :
  validate experience w = (Ok tt, w) ->
  train _train experience weights train_step_counter w =
  let (r, a) := _train experience weights train_step_counter (attrs w) in
  (match r with
   | Ok loss_info =>
       if is_LossInfo loss_info then Ok loss_info
       else Raise (TypeError (not_loss_info_message loss_info))
   | Raise err => Raise err
   end,
   {| attrs := a;
      trace := trace w ++ [CallTrain experience weights train_step_counter] |}).
Proof.
  intros H. rewrite train_validate. rewrite (bind_ok _ _ _ _ _ H).
  unfold bind, call_train.
  destruct (_train _ _ _ _) as [[v | err] a]; [| reflexivity].
  destruct (is_LossInfo v); reflexivity.
Qed.

(** [validate] either accepts or rejects, and changes nothing. *)
Lemma validate_cases experience w :
  validate experience w = (Ok tt, w) \/
  exists err, validate experience w = (Raise err, w).
Proof.
  pose proof (validate_world experience w) as H.
  destruct (validate experience w) as [[[] | err] w']; cbn in H; subst w'.
  - now left.
  - right. now exists err.
Qed.

(** Every call of [train] leaves the trace alone or adds the one call of
    the hook. *)
Lemma train_trace experience weights train_step_counter w :
  let w' := (train _train experience weights train_step_counter w).2 in
  (w' = w /\ validate experience w <> (Ok tt, w)) \/
  (validate experience w = (Ok tt, w) /\
   trace w' = trace w ++ [CallTrain experience weights train_step_counter] /\
   attrs w' =
   (_train experience weights train_step_counter (attrs w)).2).
Proof.
  destruct (validate_cases experience w) as [H | [err H]].
  - right. split; [exact H |]. rewrite (train_accepted _ _ _ _ H).
    destruct (_train _ _ _ _) as [r a]. split; reflexivity.
  - left. rewrite (train_rejected _ _ _ _ _ H). split; [reflexivity |].
    rewrite H. discriminate.
Qed.

Lemma train_keeps_fields experience weights train_step_counter w name :
  keeps_fields _train -> name ∈ fields ->
  attrs (train _train experience weights train_step_counter w).2 !! name =
  attrs w !! name.
Proof.
  intros Hk Hn.
  destruct (train_trace experience weights train_step_counter w)
    as [[-> _] | (_ & _ & ->)]; [reflexivity |].
  now apply Hk.
Qed.

Lemma train_no_SetAttr experience weights train_step_counter w :
  List.filter is_SetAttr
    (trace (train _train experience weights train_step_counter w).2) =
  List.filter is_SetAttr (trace w).
Proof.
  destruct (train_trace experience weights train_step_counter w)
    as [[-> _] | (_ & -> & _)]; [reflexivity |].
  rewrite List.filter_app. cbn. now rewrite app_nil_r.
Qed.

Lemma train_all_keeps_fields batches w name :
  keeps_fields _train -> name ∈ fields ->
  attrs (train_all _train batches w) !! name = attrs w !! name.
Proof.
  intros Hk Hn. revert w.
  induction batches as [| [[e wt] c] rest IH]; intros w; [reflexivity |].
  cbn [train_all]. rewrite IH. now apply train_keeps_fields.
Qed.

Lemma train_all_no_SetAttr batches w :
  List.filter is_SetAttr (trace (train_all _train batches w)) =
  List.filter is_SetAttr (trace w).
Proof.
  revert w. induction batches as [| [[e wt] c] rest IH]; intros w;
    [reflexivity |].
  cbn [train_all]. rewrite IH. apply train_no_SetAttr.
Qed.

End WithHook.

(** The constructor, when the override check passes. *)
Lemma init_ok cls ts acts pol cpol tsl dbg sgv w :
  overridden_members TFAgent cls = [] ->
  __init__ cls ts acts pol cpol tsl dbg sgv w =
  (Ok tt,
   {| attrs :=
        <["_summarize_grads_and_vars" := sgv]>
          (<["_debug_summaries" := dbg]>
             (<["_train_sequence_length" := tsl]>
                (<["_collect_policy" := cpol]>
                   (<["_policy" := pol]>
                      (<["_action_spec" := acts]>
                         (<["_time_step_spec" := ts]> (attrs w)))))));
      trace :=
        trace w ++
        [SetAttr "_time_step_spec" ts; SetAttr "_action_spec" acts;
         SetAttr "_policy" pol; SetAttr "_collect_policy" cpol;
         SetAttr "_train_sequence_length" tsl;
         SetAttr "_debug_summaries" dbg;
         SetAttr "_summarize_grads_and_vars" sgv] |}).
Proof.
  intros H. unfold __init__, assert_members_are_not_overridden.
  rewrite H. unfold bind, ret, setattr. cbn [attrs trace].
  rewrite <- !(List.app_assoc (trace w)). reflexivity.
Qed.

Lemma init_rejected cls ts acts pol cpol tsl dbg sgv w :
  overridden_members TFAgent cls <> [] ->
  exists msg,
    __init__ cls ts acts pol cpol tsl dbg sgv w =
    (Raise (ConfigurationError msg), w).
Proof.
  intros H. unfold __init__, assert_members_are_not_overridden.
  destruct (overridden_members TFAgent cls) as [| m l]; [congruence |].
  eexists. reflexivity.
Qed.

End TFAgentFacts.

Import TFAgentFacts.

(** ** Facts about the agent over its lifetime *)

Import TFAgent Lifetime.

Module LifetimeFacts.

Lemma forallb_false_Exists {A} (f : A -> bool) (l : list A) :
  forallb f l = false -> Exists (fun x => negb (f x) = true) l.
Proof.
  induction l as [| x l IH]; [discriminate |]. cbn [forallb].
  destruct (f x) eqn:Hx; cbn [andb].
  - intros H. right. now apply IH.
  - intros _. left. now rewrite Hx.
Qed.

Lemma time_axis_is_true n t :
  time_axis_is n t = true <->
  exists d, shape t !! 1 = Some d /\ Z.of_nat d = n.
Proof.
  unfold time_axis_is. destruct (shape t !! 1) as [d |]; split.
  - intros H. exists d. split; [reflexivity | now apply Z.eqb_eq].
  - intros (d' & [= <-] & H). now apply Z.eqb_eq.
  - discriminate.
  - intros (d' & H & _). discriminate.
Qed.

Lemma check_shape_passes e t w n :
  attrs w !! "_train_sequence_length" = Some (VInt n) ->
  time_axis_is n t = true ->
  check_shape e t w = (Ok tt, w).
Proof.
  intros Hr Ht. apply time_axis_is_true in Ht as (d & Hd & Hn).
  rewrite (check_shape_eq _ _ _ _ Hr). unfold check_shape_outcome, dim_ne.
  rewrite Hd. cbn [int_of]. now rewrite (proj2 (Z.eqb_eq _ _) Hn).
Qed.

Lemma check_shape_fails e t w n d :
  attrs w !! "_train_sequence_length" = Some (VInt n) ->
  shape t !! 1 = Some d ->
  Z.of_nat d <> n ->
  check_shape e t w =
  (Raise (ValueError
            (time_axis_message d (str_Z n) (map_structure shape e))), w).
Proof.
  intros Hr Hd Hn. rewrite (check_shape_eq _ _ _ _ Hr).
  unfold check_shape_outcome, dim_ne. rewrite Hd. cbn [int_of].
  now rewrite (proj2 (Z.eqb_neq _ _) Hn).
Qed.

Lemma validate_accepts experience w p required :
  attrs w !! "_collect_policy" = Some (VPolicy p) ->
  attrs w !! "_train_sequence_length" = Some (length_value required) ->
  accepts p required experience = true ->
  validate experience w = (Ok tt, w).
Proof.
  intros Hp Hr Hacc. unfold accepts in Hacc.
  destruct (as_Trajectory experience) as [e |] eqn:He; [| discriminate].
  apply andb_prop in Hacc as [Hb Hlen].
  rewrite (validate_batched _ _ _ _ _ He Hp Hb Hr).
  destruct required as [n |]; [| reflexivity]. cbn [length_value].
  apply for_each_ok. rewrite forallb_forall in Hlen.
  apply List.Forall_forall. intros t Ht.
  now apply (check_shape_passes _ _ _ n), Hlen.
Qed.

Lemma validate_rejects experience w p required :
  attrs w !! "_collect_policy" = Some (VPolicy p) ->
  attrs w !! "_train_sequence_length" = Some (length_value required) ->
  accepts p required experience = false ->
  exists msg, validate experience w = (Raise (ValueError msg), w).
Proof.
  intros Hp Hr Hacc. unfold accepts in Hacc.
  destruct (as_Trajectory experience) as [e |] eqn:He.
  - destruct (is_batched_nested_tensors e (trajectory_spec p) 2) eqn:Hb.
    + cbn [andb] in Hacc. destruct required as [n |]; [| discriminate].
      cbn [length_value] in Hr.
      rewrite (validate_batched _ _ _ _ _ He Hp Hb Hr).
      assert (Hex : Exists (fun t => negb (time_axis_is n t) = true)
                      (flatten e)).
      { apply forallb_false_Exists.
        now destruct (forallb (time_axis_is n) (flatten e)). }
      apply first_such in Hex as (l1 & x & l2 & Hsplit & Hl1 & Hx).
      pose proof (is_batched_rank _ _ Hb) as Hrank.
      rewrite Hsplit in Hrank. apply Forall_app in Hrank as [_ Hrank].
      apply Forall_cons in Hrank as [[d Hd] _].
      eexists. rewrite Hsplit. apply for_each_first_failure.
      * eapply Forall_impl; [exact Hl1 |]. intros y Hy.
        apply (check_shape_passes _ _ _ n); [exact Hr |].
        now apply negb_false_iff.
      * apply (check_shape_fails _ _ _ n d); [exact Hr | exact Hd |].
        intros Hn. apply negb_true_iff in Hx.
        assert (time_axis_is n x = true)
          by (apply time_axis_is_true; now exists d).
        congruence.
    + eexists. exact (validate_not_batched _ _ _ _ He Hp Hb).
  - eexists. now apply validate_not_trajectory.
Qed.







Section RunFacts.

Variable _initialize : init_hook.
Variable _train : train_hook.
Hypothesis Hinit : initialize_keeps_fields _initialize.
Hypothesis Htrain : keeps_fields _train.

Lemma initialize_keeps name w :
  name ∈ fields ->
  attrs (initialize _initialize w).2 !! name = attrs w !! name.
Proof.
  intros Hn. unfold initialize, call_initialize.
  pose proof (Hinit (attrs w) name Hn) as H.
  now destruct (_initialize (attrs w)) as [r a].
Qed.

Lemma run_keeps_fields calls w name :
  name ∈ fields ->
  attrs (run _initialize _train calls w) !! name = attrs w !! name.
Proof.
  intros Hn. revert w.
  induction calls as [| [| e wt c] rest IH]; intros w; [reflexivity | |];
    cbn [run]; rewrite IH.
  - now apply initialize_keeps.
  - now apply train_keeps_fields.
Qed.

Lemma run_no_SetAttr calls w :
  List.filter is_SetAttr (trace (run _initialize _train calls w)) =
  List.filter is_SetAttr (trace w).
Proof.
  revert w. induction calls as [| [| e wt c] rest IH]; intros w;
    [reflexivity | |]; cbn [run]; rewrite IH.
  - unfold initialize, call_initialize.
    destruct (_initialize (attrs w)) as [r a]. cbn [snd trace].
    rewrite List.filter_app. cbn. now rewrite app_nil_r.
  - apply train_no_SetAttr.
Qed.

End RunFacts.

End LifetimeFacts.

Import LifetimeFacts.

(** ** The contract of [train] and of the constructor *)

Import TFAgent Example.

(** C1.  An experience batch that is a [Trajectory], nest-matches
    [collect_data_spec] with exactly the two outer dimensions batch and time
    and, when [train_sequence_length] is a fixed integer, has that size on
    axis 1 of every tensor, makes [train] call the hook [_train] exactly
    once, with [(experience, weights, train_step_counter)], and return the
    hook's [LossInfo] unchanged: the trace grows by that single call and by
    nothing else. *)
Theorem train_valid_experience_delegates_once
    _train w p required experience e weights train_step_counter loss_info a :
  attrs w !! "_collect_policy" = Some (VPolicy p) ->
  attrs w !! "_train_sequence_length" = Some required ->
  as_Trajectory experience = Some e ->
  batched_with_time e (trajectory_spec p) ->
  (required = VNone \/
   exists n, required = VInt n /\
     Forall (fun t => exists d, shape t !! 1 = Some d /\ Z.of_nat d = n)
       (flatten e)) ->
  _train experience weights train_step_counter (attrs w) = (Ok loss_info, a) ->
  is_LossInfo loss_info = true ->
  train _train experience weights train_step_counter w =
  (Ok loss_info,
   {| attrs := a;
      trace := trace w ++ [CallTrain experience weights train_step_counter] |}).
Proof.
  intros Hp Hr He Hb Hlen Hhook Hli.
  assert (Hv : validate experience w = (Ok tt, w)).
  { apply is_batched_two in Hb.
    rewrite (validate_batched _ _ _ _ _ He Hp Hb Hr).
    destruct Hlen as [-> | (n & -> & Hall)]; [reflexivity |].
    apply for_each_ok. eapply Forall_impl; [exact Hall |].
    intros t (d & Hd & Hn). rewrite (check_shape_eq _ _ _ _ Hr).
    unfold check_shape_outcome, dim_ne. rewrite Hd. cbn [int_of].
    now rewrite (proj2 (Z.eqb_eq _ _) Hn). }
  rewrite (train_accepted _ _ _ _ _ Hv), Hhook, Hli. reflexivity.
Qed.

Lemma train_valid_experience_delegates_once_witness :
  train dqn_train batch_4_2 VNone (VInt 7) (constructed (VInt 2)) =
  (Ok loss_1_25,
   {| attrs := <["_steps" := VInt 1]> (attrs (constructed (VInt 2)));
      trace := trace (constructed (VInt 2)) ++
               [CallTrain batch_4_2 VNone (VInt 7)] |}).
Proof.
  apply (train_valid_experience_delegates_once dqn_train
           (constructed (VInt 2)) explorer (VInt 2) batch_4_2
           (make_trajectory Tensor [4; 2] [4; 2; 8])).
  - reflexivity.
  - reflexivity.
  - reflexivity.
  - apply is_batched_two. reflexivity.
  - right. exists 2%Z. split; [reflexivity |].
    repeat constructor; exists 2; split; reflexivity.
  - reflexivity.
  - reflexivity.
Defined.

(** C6.  When [train_sequence_length] is [None] there is no time-axis
    check: a [Trajectory] that passes the structure check reaches the hook
    whatever its time-axis sizes, and the outcome of [train] is the outcome
    of the hook, subject to the result check. *)
Theorem train_unconstrained_reaches_hook
    _train w p experience e weights train_step_counter :
  attrs w !! "_collect_policy" = Some (VPolicy p) ->
  attrs w !! "_train_sequence_length" = Some VNone ->
  as_Trajectory experience = Some e ->
  is_batched_nested_tensors e (trajectory_spec p) 2 = true ->
  validate experience w = (Ok tt, w) /\
  train _train experience weights train_step_counter w =
  let (r, a) := _train experience weights train_step_counter (attrs w) in
  (match r with
   | Ok loss_info =>
       if is_LossInfo loss_info then Ok loss_info
       else Raise (TypeError (not_loss_info_message loss_info))
   | Raise err => Raise err
   end,
   {| attrs := a;
      trace := trace w ++ [CallTrain experience weights train_step_counter] |}).
Proof.
  intros Hp Hr He Hb.
  assert (Hv : validate experience w = (Ok tt, w)).
  { now rewrite (validate_batched _ _ _ _ _ He Hp Hb Hr). }
  split; [exact Hv | now apply train_accepted].
Qed.

Lemma train_unconstrained_reaches_hook_witness :
  (train dqn_train batch_4_3 VNone VNone (constructed VNone)).1 = Ok loss_1_25 /\
  trace (train dqn_train batch_4_3 VNone VNone (constructed VNone)).2 =
  trace (constructed VNone) ++ [CallTrain batch_4_3 VNone VNone].
Proof.
  destruct (train_unconstrained_reaches_hook dqn_train (constructed VNone)
              explorer batch_4_3 (make_trajectory Tensor [4; 3] [4; 3; 8])
              VNone VNone) as [_ H].
  - reflexivity.
  - reflexivity.
  - reflexivity.
  - reflexivity.
  - rewrite H. split; reflexivity.
Defined.

(** C2.  What the code does with an [experience] that is not a
    [Trajectory]: it raises [ValueError], not [TypeError], with a message
    that shows the actual type; the hook is not called and nothing
    changes. *)
Theorem train_not_trajectory_raises_ValueError
    _train w experience weights train_step_counter :
  as_Trajectory experience = None ->
  train _train experience weights train_step_counter w =
  (Raise (ValueError
            ("experience must be type Trajectory, saw type: " +:+
             str_type experience)), w).
Proof.
  intros H. apply train_rejected. now apply validate_not_trajectory.
Qed.

Lemma train_not_trajectory_raises_ValueError_witness :
  train dqn_train (VInt 5) VNone VNone (constructed (VInt 2)) =
  (Raise (ValueError
            "experience must be type Trajectory, saw type: <class 'int'>"),
   constructed (VInt 2)).
Proof.
  apply (train_not_trajectory_raises_ValueError dqn_train
           (constructed (VInt 2)) (VInt 5) VNone VNone).
  reflexivity.
Defined.

(** C5.  Whenever [train] gets as far as calling the hook and the hook
    returns a value, a value that is not a [LossInfo] makes [train] raise
    [TypeError], and a [LossInfo] is returned as it is. *)
Theorem train_checks_hook_result
    _train w experience weights train_step_counter loss_info a :
  trace (train _train experience weights train_step_counter w).2 =
    trace w ++ [CallTrain experience weights train_step_counter] ->
  _train experience weights train_step_counter (attrs w) = (Ok loss_info, a) ->
  (is_LossInfo loss_info = false ->
   (train _train experience weights train_step_counter w).1 =
   Raise (TypeError
            ("loss_info is not a subclass of LossInfo: " +:+
             str_value loss_info))) /\
  (is_LossInfo loss_info = true ->
   (train _train experience weights train_step_counter w).1 = Ok loss_info).
Proof.
  intros Htrace Hhook.
  destruct (train_trace _train experience weights train_step_counter w)
    as [[Hw _] | (Hv & _ & _)].
  - rewrite Hw in Htrace. exfalso.
    apply (f_equal length) in Htrace. rewrite length_app in Htrace.
    cbn in Htrace. lia.
  - rewrite (train_accepted _ _ _ _ _ Hv), Hhook.
    split; intros ->; reflexivity.
Qed.

Lemma train_checks_hook_result_witness :
  (train raw_loss_train batch_4_2 VNone VNone (constructed (VInt 2))).1 =
  Raise (TypeError "loss_info is not a subclass of LossInfo: 1.25").
Proof.
  apply (train_checks_hook_result raw_loss_train (constructed (VInt 2))
           batch_4_2 VNone VNone (VObject "float" "1.25")
           (attrs (constructed (VInt 2)))).
  - reflexivity.
  - reflexivity.
  - reflexivity.
Defined.

(** C3, as the code has it.  For a [Trajectory] that passes the structure
    check while [train_sequence_length] is a fixed integer and some tensor
    has another size on axis 1, [train] raises [ValueError] before the hook
    is called.  The message names the axis-1 size found on the first such
    tensor and the required size, and shows the shape of every tensor of
    the experience. *)
Theorem train_wrong_time_axis
    _train w p n experience e weights train_step_counter :
  attrs w !! "_collect_policy" = Some (VPolicy p) ->
  attrs w !! "_train_sequence_length" = Some (VInt n) ->
  as_Trajectory experience = Some e ->
  batched_with_time e (trajectory_spec p) ->
  (exists t d, In t (flatten e) /\ shape t !! 1 = Some d /\ Z.of_nat d <> n) ->
  exists found msg,
    (exists t, In t (flatten e) /\ shape t !! 1 = Some found) /\
    Z.of_nat found <> n /\
    train _train experience weights train_step_counter w =
      (Raise (ValueError msg), w) /\
    msg = time_axis_message found (str_Z n) (map_structure shape e) /\
    contains msg ("dim value '" +:+ str_nat found +:+ "'") /\
    contains msg ("require dim value '" +:+ str_Z n +:+ "'") /\
    contains msg (repr_nest repr_shape (map_structure shape e)) /\
    forall t, In t (flatten e) -> contains msg (repr_shape (shape t)).
Proof.
  intros Hp Hr He Hb (t0 & d0 & Hin0 & Hd0 & Hne0).
  apply is_batched_two in Hb.
  pose proof (is_batched_rank _ _ Hb) as Hrank.
  set (bad := fun t => match shape t !! 1 with
                       | Some d => negb (Z.of_nat d =? n)%Z
                       | None => false
                       end).
  assert (Hex : Exists (fun t => bad t = true) (flatten e)).
  { apply Exists_exists. exists t0. split; [now apply list_elem_of_In |].
    unfold bad. rewrite Hd0. apply negb_true_iff, Z.eqb_neq, Hne0. }
  apply first_such in Hex as (l1 & x & l2 & Hsplit & Hl1 & Hx).
  unfold bad in Hx. destruct (shape x !! 1) as [found |] eqn:Hfound;
    [| discriminate].
  apply negb_true_iff, Z.eqb_neq in Hx.
  exists found, (time_axis_message found (str_Z n) (map_structure shape e)).
  split; [| split; [exact Hx | split; [| split; [reflexivity |]]]].
  - exists x. split; [| exact Hfound]. rewrite Hsplit.
    apply in_or_app. right. now left.
  - apply train_rejected.
    rewrite (validate_batched _ _ _ _ _ He Hp Hb Hr), Hsplit.
    apply for_each_first_failure.
    + rewrite Hsplit in Hrank. apply Forall_app in Hrank as [Hrank _].
      assert (H12 : Forall (fun y => bad y = false /\ is_Some (shape y !! 1))
                      l1) by (apply Forall_and; split; assumption).
      eapply Forall_impl; [exact H12 |].
      intros y [Hy [d Hd]]. rewrite (check_shape_eq _ _ _ _ Hr).
      unfold check_shape_outcome, dim_ne. unfold bad in Hy.
      rewrite Hd in Hy |- *. cbn [int_of]. now rewrite Hy.
    + rewrite (check_shape_eq _ _ _ _ Hr).
      unfold check_shape_outcome, dim_ne. rewrite Hfound. cbn [int_of].
      now rewrite (proj2 (Z.eqb_neq _ _) Hx).
  - unfold time_axis_message. repeat split.
    + apply contains_app_r.
      exists "", (", but we require dim value '" +:+ str_Z n +:+ "'.  " +:+
                  "Full shape structure of experience:" +:+ nl +:+
                  repr_nest repr_shape (map_structure shape e)).
      rewrite !string_app_assoc. reflexivity.
    + do 3 apply contains_app_r.
      exists "', but we ", (".  " +:+
                  "Full shape structure of experience:" +:+ nl +:+
                  repr_nest repr_shape (map_structure shape e)).
      rewrite !string_app_assoc. reflexivity.
    + do 8 apply contains_app_r. apply contains_refl.
    + intros t Ht. do 8 apply contains_app_r. now apply contains_shapes.
Qed.

Lemma train_wrong_time_axis_witness :
  exists msg,
    train dqn_train batch_4_3 VNone VNone (constructed (VInt 2)) =
      (Raise (ValueError msg), constructed (VInt 2)) /\
    contains msg "dim value '3'" /\
    contains msg "require dim value '2'" /\
    contains msg "TensorShape([4, 3, 8])".
Proof.
  destruct (train_wrong_time_axis dqn_train (constructed (VInt 2)) explorer
              2%Z batch_4_3 (make_trajectory Tensor [4; 3] [4; 3; 8])
              VNone VNone)
    as (found & msg & _ & _ & Htrain & _).
  - reflexivity.
  - reflexivity.
  - reflexivity.
  - apply is_batched_two. reflexivity.
  - exists (Tensor [4; 3]), 3. split; [now left |].
    split; [reflexivity | discriminate].
  - exists msg. split; [exact Htrain |].
    vm_compute in Htrain. injection Htrain as <-.
    repeat split; apply containsb_sound; vm_compute; reflexivity.
Defined.

(** C3 as it is worded does not hold: the structure check comes first.
    These tensors are one dimension short, shaped [[4]] and [[4, 8]], so
    the observation has 8 on axis 1 where 2 is required; [train] raises the
    [ValueError] of the structure check, whose message shows the shapes
    and does not mention the required value. *)
Lemma train_wrong_time_axis_counterexample :
  as_Trajectory batch_4 = Some (make_trajectory Tensor [4] [4; 8]) /\
  (exists t d,
     In t (flatten (make_trajectory Tensor [4] [4; 8])) /\
     shape t !! 1 = Some d /\ Z.of_nat d <> 2%Z) /\
  exists msg,
    train dqn_train batch_4 VNone VNone (constructed (VInt 2)) =
      (Raise (ValueError msg), constructed (VInt 2)) /\
    msg = outer_dims_message
            (map_structure shape (make_trajectory Tensor [4] [4; 8]))
            (map_structure shape data_spec) /\
    ~ contains msg "2".
Proof.
  split; [reflexivity |]. split.
  - exists (Tensor [4; 8]), 8. split; [right; now left |].
    split; [reflexivity | discriminate].
  - eexists. split; [vm_compute; reflexivity |]. split.
    + vm_compute. reflexivity.
    + intros H. apply containsb_complete in H. vm_compute in H. discriminate.
Qed.

(** C4.  For a [Trajectory] that does not nest-match [collect_data_spec]
    or in which some tensor is not shaped batch, time, then the feature
    shape of its spec, [train] raises [ValueError] without calling the hook.
    The message prints the shape structure of the experience and that of
    the spec, so it shows the actual shape of every tensor and the expected
    shape of every spec entry, position by position. *)
Theorem train_not_batched_reports_shapes
    _train w p experience e weights train_step_counter :
  attrs w !! "_collect_policy" = Some (VPolicy p) ->
  as_Trajectory experience = Some e ->
  ~ batched_with_time e (trajectory_spec p) ->
  exists msg,
    train _train experience weights train_step_counter w =
      (Raise (ValueError msg), w) /\
    msg = outer_dims_message (map_structure shape e)
            (map_structure shape (trajectory_spec p)) /\
    (forall t, In t (flatten e) -> contains msg (repr_shape (shape t))) /\
    (forall s, In s (flatten (trajectory_spec p)) ->
               contains msg (repr_shape (shape s))) /\
    (forall i t s,
       flatten e !! i = Some t -> flatten (trajectory_spec p) !! i = Some s ->
       contains msg (repr_shape (shape t)) /\
       contains msg (repr_shape (shape s))).
Proof.
  intros Hp He Hnb.
  assert (Hb : is_batched_nested_tensors e (trajectory_spec p) 2 = false).
  { destruct (is_batched_nested_tensors e (trajectory_spec p) 2) eqn:Hb;
      [| reflexivity].
    exfalso. apply Hnb. now apply is_batched_two. }
  set (msg := outer_dims_message (map_structure shape e)
                (map_structure shape (trajectory_spec p))).
  assert (Hactual : forall t, In t (flatten e) ->
                              contains msg (repr_shape (shape t))).
  { intros t Ht. unfold msg, outer_dims_message.
    do 6 apply contains_app_r. apply contains_app_l.
    now apply contains_shapes. }
  assert (Hexpected : forall s, In s (flatten (trajectory_spec p)) ->
                                contains msg (repr_shape (shape s))).
  { intros s Hs. unfold msg, outer_dims_message.
    do 11 apply contains_app_r. apply contains_app_l.
    now apply contains_shapes. }
  exists msg. split; [| split; [reflexivity | split; [| split]]].
  - apply train_rejected. now apply validate_not_batched.
  - exact Hactual.
  - exact Hexpected.
  - intros i t s Ht Hs. split.
    + apply Hactual, list_elem_of_In, list_elem_of_lookup. now exists i.
    + apply Hexpected, list_elem_of_In, list_elem_of_lookup. now exists i.
Qed.

Lemma train_not_batched_reports_shapes_witness :
  exists msg,
    train dqn_train batch_4 VNone VNone (constructed (VInt 2)) =
      (Raise (ValueError msg), constructed (VInt 2)) /\
    contains msg (repr_shape [4; 8]) /\
    contains msg (repr_shape [8]).
Proof.
  destruct (train_not_batched_reports_shapes dqn_train (constructed (VInt 2))
              explorer batch_4 (make_trajectory Tensor [4] [4; 8])
              VNone VNone)
    as (msg & Htrain & _ & _ & _ & Hpair).
  - reflexivity.
  - reflexivity.
  - intros H. apply is_batched_two in H. discriminate H.
  - exists msg. split; [exact Htrain |].
    apply (Hpair 1 (Tensor [4; 8]) (TensorSpec [8])); reflexivity.
Defined.

(** C10.  The index [t.shape[1]] of the fixed-length check is always in
    range.  Every tensor of an experience accepted by the structure check
    has an axis 1, so [check_shape] does not fault on it; and since
    [check_shape] runs only after that check, [train] itself never fails
    with an [IndexError]: when [train] raises one, the hook was called and
    raised it. *)
Theorem time_axis_index_in_range :
  (forall e specs,
     is_batched_nested_tensors e specs 2 = true ->
     Forall (fun t => is_Some (shape t !! 1)) (flatten e) /\
     forall t w msg,
       In t (flatten e) ->
       (check_shape e t w).1 <> Raise (IndexError msg)) /\
  (forall _train experience weights train_step_counter w msg,
     (train _train experience weights train_step_counter w).1 =
       Raise (IndexError msg) ->
     trace (train _train experience weights train_step_counter w).2 =
       trace w ++ [CallTrain experience weights train_step_counter] /\
     (_train experience weights train_step_counter (attrs w)).1 =
       Raise (IndexError msg)).
Proof.
  split.
  { intros e specs Hb. pose proof (is_batched_rank _ _ Hb) as Hrank.
    split; [exact Hrank |]. intros t w msg Ht.
    rewrite List.Forall_forall in Hrank. destruct (Hrank t Ht) as [d Hd].
    now apply check_shape_no_IndexError with d. }
  intros _train experience weights train_step_counter w msg.
  destruct (validate_cases experience w) as [Hv | [err Hv]].
  - rewrite (train_accepted _ _ _ _ _ Hv).
    destruct (_train _ _ _ _) as [[v | err] a]; cbn.
    + destruct (is_LossInfo v); discriminate.
    + intros [= ->]. split; reflexivity.
  - rewrite (train_rejected _ _ _ _ _ _ Hv). cbn. intros [= ->].
    exfalso. apply (validate_no_IndexError experience w msg).
    now rewrite Hv.
Qed.

Lemma time_axis_index_in_range_witness :
  Forall (fun t => is_Some (shape t !! 1))
    (flatten (make_trajectory Tensor [4; 3] [4; 3; 8])) /\
  forall msg,
    (check_shape (make_trajectory Tensor [4; 3] [4; 3; 8]) (Tensor [4; 3; 8])
       (constructed (VInt 2))).1 <> Raise (IndexError msg).
Proof.
  destruct (proj1 time_axis_index_in_range
              (make_trajectory Tensor [4; 3] [4; 3; 8]) data_spec eq_refl)
    as [Hrank Hcheck].
  split; [exact Hrank |]. intros msg. apply Hcheck.
  right. left. reflexivity.
Defined.

(** C7.  A subclass that rebinds one of the public members of [TFAgent]
    cannot be constructed: the constructor raises the configuration error
    of the override check, which runs first, and leaves the instance as it
    found it, with no attribute assigned. *)
Theorem init_rejects_overrides cls ts acts pol cpol tsl dbg sgv w m :
  In m (class_members cls) ->
  In m (public_members TFAgent) ->
  exists msg,
    __init__ cls ts acts pol cpol tsl dbg sgv w =
    (Raise (ConfigurationError msg), w).
Proof.
  intros Hcls Hpub. apply init_rejected. intros Hnil.
  assert (Hin : In m (overridden_members TFAgent cls)).
  { unfold overridden_members. apply List.filter_In. split; [exact Hpub |].
    now apply bool_decide_eq_true, list_elem_of_In. }
  rewrite Hnil in Hin. destruct Hin.
Qed.

Lemma init_rejects_overrides_witness :
  exists msg,
    __init__ rogue (VNest data_spec) (VNest (Leaf (TensorSpec [])))
      (VPolicy greedy) (VPolicy explorer) (VInt 2) (VBool false) (VBool false)
      fresh =
    (Raise (ConfigurationError msg), fresh).
Proof.
  apply (init_rejects_overrides rogue _ _ _ _ _ _ _ fresh "train").
  - right. left. reflexivity.
  - right. left. reflexivity.
Defined.

(** The example hook only ever assigns its own step count. *)
Lemma dqn_train_keeps_fields : keeps_fields dqn_train.
Proof.
  intros experience weights train_step_counter a name Hname.
  assert (Hne : "_steps" <> name).
  { intros <-. apply list_elem_of_In in Hname. cbn in Hname.
    repeat (destruct Hname as [Hname | Hname]; [discriminate |]).
    destruct Hname. }
  unfold dqn_train. destruct (a !! "_steps") as [[] |]; cbn;
    now apply lookup_insert_ne.
Defined.

(** The example [_initialize] only resets its own step count. *)
Lemma dqn_initialize_keeps_fields : initialize_keeps_fields dqn_initialize.
Proof.
  intros a name Hname. unfold dqn_initialize. cbn [snd].
  apply lookup_insert_ne. intros <-.
  apply list_elem_of_In in Hname. cbn in Hname.
  repeat (destruct Hname as [Hname | Hname]; [discriminate |]).
  destruct Hname.
Defined.

(** C8, as the code has it.  [collect_data_spec] is computed on each
    access from the collect policy and is not stored.  For an agent whose
    hooks do not reassign the attributes of the base class, it is, from
    construction onwards and through any sequence of [initialize] and
    [train] calls, the [trajectory_spec] of the collect policy given to the
    constructor; and it follows the [_collect_policy] attribute, whatever
    policy that attribute holds. *)
Theorem collect_data_spec_is_derived
    _initialize _train cls ts acts pol p tsl dbg sgv w0 calls :
  initialize_keeps_fields _initialize ->
  keeps_fields _train ->
  overridden_members TFAgent cls = [] ->
  let w := run _initialize _train calls
             (__init__ cls ts acts pol (VPolicy p) tsl dbg sgv w0).2 in
  collect_data_spec w = (Ok (trajectory_spec p), w) /\
  forall w' p',
    attrs w' !! "_collect_policy" = Some (VPolicy p') ->
    collect_data_spec w' = (Ok (trajectory_spec p'), w').
Proof.
  intros Hinit Htrain Hcls w. split.
  - apply collect_data_spec_ok. subst w.
    rewrite run_keeps_fields;
      [| exact Hinit | exact Htrain | apply list_elem_of_In; cbn; tauto].
    rewrite (init_ok _ _ _ _ _ _ _ _ _ Hcls). cbn [snd attrs].
    now simplify_map_eq.
  - intros w' p'. apply collect_data_spec_ok.
Qed.

Lemma collect_data_spec_is_derived_witness :
  let w := run dqn_initialize dqn_train
             [Initialize; Train batch_4_2 VNone VNone;
              Train (VInt 5) VNone VNone; Initialize;
              Train batch_4_3 VNone VNone]
             (constructed (VInt 2)) in
  collect_data_spec w = (Ok data_spec, w).
Proof.
  apply (collect_data_spec_is_derived dqn_initialize dqn_train dqn
           (VNest data_spec) (VNest (Leaf (TensorSpec []))) (VPolicy greedy)
           explorer (VInt 2) (VBool false) (VBool false) fresh).
  - exact dqn_initialize_keeps_fields.
  - exact dqn_train_keeps_fields.
  - reflexivity.
Defined.

(** C8 as it is worded does not hold for every agent: a subclass hook can
    reassign [_collect_policy].  After one [train] call of such an agent,
    [collect_data_spec] is the spec of the policy the hook put there, not
    that of the collect policy given to the constructor. *)
Lemma collect_data_spec_is_derived_counterexample :
  let w0 := constructed (VInt 2) in
  let w := (train policy_swapping_train batch_4_2 VNone VNone w0).2 in
  collect_data_spec w0 = (Ok (trajectory_spec explorer), w0) /\
  collect_data_spec w = (Ok (trajectory_spec wide), w) /\
  trajectory_spec wide <> trajectory_spec explorer.
Proof.
  cbv zeta. split; [reflexivity |]. split; [reflexivity | discriminate].
Qed.

(** C9, as the code has it.  The constructor assigns each of the seven
    fields once, and neither [train] nor a descriptor of the base class
    assigns any attribute afterwards.  So long as the subclass hook leaves
    these attributes alone, after any sequence of [train] calls, failed or
    not, every descriptor still returns the constructor argument, and
    reading it changes nothing. *)
Theorem fields_are_write_once
    _train cls ts acts pol cpol tsl dbg sgv w0 batches :
  keeps_fields _train ->
  overridden_members TFAgent cls = [] ->
  let w := train_all _train batches
             (__init__ cls ts acts pol cpol tsl dbg sgv w0).2 in
  time_step_spec w = (Ok ts, w) /\
  action_spec w = (Ok acts, w) /\
  policy w = (Ok pol, w) /\
  collect_policy w = (Ok cpol, w) /\
  train_sequence_length w = (Ok tsl, w) /\
  debug_summaries w = (Ok dbg, w) /\
  summarize_grads_and_vars w = (Ok sgv, w) /\
  List.filter is_SetAttr (trace w) =
  List.filter is_SetAttr (trace w0) ++
  [SetAttr "_time_step_spec" ts; SetAttr "_action_spec" acts;
   SetAttr "_policy" pol; SetAttr "_collect_policy" cpol;
   SetAttr "_train_sequence_length" tsl; SetAttr "_debug_summaries" dbg;
   SetAttr "_summarize_grads_and_vars" sgv].
Proof.
  intros Hk Hcls w.
  assert (Hget : forall name v,
            In name fields ->
            attrs (__init__ cls ts acts pol cpol tsl dbg sgv w0).2 !! name =
              Some v ->
            getattr name w = (Ok v, w)).
  { intros name v Hname Hv. apply getattr_some. subst w.
    rewrite train_all_keeps_fields;
      [exact Hv | exact Hk | now apply list_elem_of_In]. }
  rewrite (init_ok _ _ _ _ _ _ _ _ _ Hcls) in Hget. cbn [snd attrs] in Hget.
  repeat split;
    try (apply Hget; [cbn; tauto | now simplify_map_eq]).
  subst w. rewrite train_all_no_SetAttr.
  rewrite (init_ok _ _ _ _ _ _ _ _ _ Hcls). cbn [snd trace].
  rewrite List.filter_app. reflexivity.
Qed.

Lemma fields_are_write_once_witness :
  let w := train_all dqn_train
             [(batch_4_2, VNone, VNone); (VInt 5, VNone, VNone);
              (batch_4_3, VNone, VNone)]
             (constructed (VInt 2)) in
  train_sequence_length w = (Ok (VInt 2), w) /\
  collect_policy w = (Ok (VPolicy explorer), w).
Proof.
  destruct (fields_are_write_once dqn_train dqn (VNest data_spec)
              (VNest (Leaf (TensorSpec []))) (VPolicy greedy)
              (VPolicy explorer) (VInt 2) (VBool false) (VBool false) fresh
              [(batch_4_2, VNone, VNone); (VInt 5, VNone, VNone);
               (batch_4_3, VNone, VNone)]
              dqn_train_keeps_fields eq_refl)
    as (_ & _ & _ & Hcp & Htsl & _).
  split; [exact Htsl | exact Hcp].
Defined.

(** C9 as it is worded does not hold for every agent: a subclass hook can
    reassign a field.  After one [train] call of such an agent the
    descriptor [train_sequence_length] returns what the hook stored, not
    the constructor argument. *)
Lemma fields_are_write_once_counterexample :
  let w0 := constructed (VInt 2) in
  let w := train_all length_changing_train [(batch_4_2, VNone, VNone)] w0 in
  train_sequence_length w0 = (Ok (VInt 2), w0) /\
  train_sequence_length w = (Ok (VInt 3), w).
Proof.
  cbv zeta. split; reflexivity.
Qed.

(** ** Further properties of the agent *)


(** X2.  An exception raised by the hook reaches the caller of [train]
    unchanged, and whatever the hook did to the instance before raising
    stays done. *)
Theorem train_propagates_hook_exception
    _train w p required experience weights train_step_counter err a :
  attrs w !! "_collect_policy" = Some (VPolicy p) ->
  attrs w !! "_train_sequence_length" = Some (length_value required) ->
  accepts p required experience = true ->
  _train experience weights train_step_counter (attrs w) = (Raise err, a) ->
  train _train experience weights train_step_counter w =
  (Raise err,
   {| attrs := a;
      trace := trace w ++ [CallTrain experience weights train_step_counter] |}).
Proof.
  intros Hp Hr Hacc Hhook.
  rewrite (train_accepted _ _ _ _ _ (validate_accepts _ _ _ _ Hp Hr Hacc)).
  now rewrite Hhook.
Qed.

Lemma train_propagates_hook_exception_witness :
  train failing_train batch_4_2 VNone VNone (constructed (VInt 2)) =
  (Raise (OtherError "ResourceExhaustedError" "out of memory"),
   {| attrs := <["_steps" := VInt 1]> (attrs (constructed (VInt 2)));
      trace := trace (constructed (VInt 2)) ++
               [CallTrain batch_4_2 VNone VNone] |}).
Proof.
  apply (train_propagates_hook_exception failing_train
           (constructed (VInt 2)) explorer (Some 2%Z)); reflexivity.
Defined.

(** X3.  The result check comes after the training step: when the hook
    returns something that is not a [LossInfo], [train] raises [TypeError]
    but the changes the hook made to the instance are kept, and the call
    is on record. *)
Theorem train_keeps_hook_effects_on_TypeError
    _train w p required experience weights train_step_counter v a :
  attrs w !! "_collect_policy" = Some (VPolicy p) ->
  attrs w !! "_train_sequence_length" = Some (length_value required) ->
  accepts p required experience = true ->
  _train experience weights train_step_counter (attrs w) = (Ok v, a) ->
  is_LossInfo v = false ->
  train _train experience weights train_step_counter w =
  (Raise (TypeError (not_loss_info_message v)),
   {| attrs := a;
      trace := trace w ++ [CallTrain experience weights train_step_counter] |}).
Proof.
  intros Hp Hr Hacc Hhook Hv.
  rewrite (train_accepted _ _ _ _ _ (validate_accepts _ _ _ _ Hp Hr Hacc)).
  now rewrite Hhook, Hv.
Qed.

Lemma train_keeps_hook_effects_on_TypeError_witness :
  attrs (train stepping_raw_loss_train batch_4_2 VNone VNone
           (constructed (VInt 2))).2 !! "_steps" = Some (VInt 1).
Proof.
  rewrite (train_keeps_hook_effects_on_TypeError stepping_raw_loss_train
             (constructed (VInt 2)) explorer (Some 2%Z) batch_4_2 VNone VNone
             (VObject "float" "1.25")
             (<["_steps" := VInt 1]> (attrs (constructed (VInt 2))))
             eq_refl eq_refl eq_refl eq_refl eq_refl).
  reflexivity.
Defined.

(** X4.  When several tensors have the wrong size on the time axis, the
    error names the first of them in flattening order: the tensors before
    it have the required size, and the message carries its axis-1 size. *)
Theorem train_reports_first_mismatch
    _train w p n experience e weights train_step_counter l1 x l2 d :
  attrs w !! "_collect_policy" = Some (VPolicy p) ->
  attrs w !! "_train_sequence_length" = Some (VInt n) ->
  as_Trajectory experience = Some e ->
  is_batched_nested_tensors e (trajectory_spec p) 2 = true ->
  flatten e = l1 ++ x :: l2 ->
  Forall (fun t => time_axis_is n t = true) l1 ->
  shape x !! 1 = Some d ->
  Z.of_nat d <> n ->
  train _train experience weights train_step_counter w =
  (Raise (ValueError
            (time_axis_message d (str_Z n) (map_structure shape e))), w).
Proof.
  intros Hp Hr He Hb Hsplit Hl1 Hd Hn. apply train_rejected.
  rewrite (validate_batched _ _ _ _ _ He Hp Hb Hr), Hsplit.
  apply for_each_first_failure.
  - eapply Forall_impl; [exact Hl1 |]. intros y Hy.
    now apply (check_shape_passes _ _ _ n).
  - now apply (check_shape_fails _ _ _ n d).
Qed.

Lemma train_reports_first_mismatch_witness :
  exists msg,
    train dqn_train batch_mixed_time VNone VNone (constructed (VInt 2)) =
      (Raise (ValueError msg), constructed (VInt 2)) /\
    contains msg "dim value '3'" /\ ~ contains msg "dim value '5'".
Proof.
  eexists. split; [| split].
  - apply (train_reports_first_mismatch dqn_train (constructed (VInt 2))
             explorer 2%Z batch_mixed_time mixed_time VNone VNone
             [Tensor [4; 2]] (Tensor [4; 3; 8])
             [Tensor [4; 5]; Tensor [4; 2]; Tensor [4; 2]; Tensor [4; 2]] 3);
      try reflexivity; [repeat constructor | discriminate].
  - apply containsb_sound. vm_compute. reflexivity.
  - intros H. apply containsb_complete in H. vm_compute in H. discriminate.
Defined.



(** X6.  [train] reads the data spec off the collect policy: on an
    instance whose [_collect_policy] is missing, or is an object without a
    [trajectory_spec] such as [None], a [Trajectory] is answered with
    [AttributeError], before any check of its shapes and before the hook. *)
Theorem train_needs_collect_policy
    _train w experience e weights train_step_counter :
  as_Trajectory experience = Some e ->
  (forall p, attrs w !! "_collect_policy" <> Some (VPolicy p)) ->
  exists msg,
    train _train experience weights train_step_counter w =
    (Raise (AttributeError msg), w).
Proof.
  intros He Hp.
  assert (Hc : exists msg, collect_data_spec w = (Raise (AttributeError msg), w)).
  { unfold collect_data_spec, collect_policy, bind, getattr.
    destruct (attrs w !! "_collect_policy") as [v |] eqn:Hv;
      [| eexists; reflexivity].
    destruct v; try (eexists; reflexivity). now destruct (Hp p). }
  destruct Hc as [msg Hc]. exists msg. apply train_rejected.
  unfold validate. rewrite He. now rewrite (bind_raise _ _ _ _ _ Hc).
Qed.

Lemma train_needs_collect_policy_witness :
  (exists msg,
     train dqn_train batch_4_2 VNone VNone (constructed_with VNone (VInt 2)) =
     (Raise (AttributeError msg), constructed_with VNone (VInt 2))) /\
  (exists msg,
     train dqn_train batch_4_2 VNone VNone fresh =
     (Raise (AttributeError msg), fresh)).
Proof.
  split;
    apply (train_needs_collect_policy dqn_train _ batch_4_2
             (make_trajectory Tensor [4; 2] [4; 2; 8]));
    try reflexivity; intros p; discriminate.
Defined.

(** X9.  Over any sequence of [initialize] and [train] calls on an agent
    whose hooks leave the base attributes alone, the hooks are invoked in
    the order of the calls: [_initialize] once for every [initialize], and
    [_train] once, with the arguments given, for exactly those [train]
    calls whose experience passes the three checks.  Nothing else is
    recorded. *)
Theorem run_hook_calls _initialize _train w p required calls :
  initialize_keeps_fields _initialize ->
  keeps_fields _train ->
  attrs w !! "_collect_policy" = Some (VPolicy p) ->
  attrs w !! "_train_sequence_length" = Some (length_value required) ->
  trace (run _initialize _train calls w) =
  trace w ++ hook_calls p required calls.
Proof.
  intros Hinit Htrain. revert w.
  induction calls as [| [| e wt c] rest IH]; intros w Hp Hr.
  - cbn. now rewrite app_nil_r.
  - cbn [run hook_calls flat_map]. rewrite IH.
    + unfold initialize, call_initialize.
      destruct (_initialize (attrs w)) as [r a]. cbn [snd trace].
      now rewrite <- List.app_assoc.
    + rewrite initialize_keeps; [exact Hp | exact Hinit |].
      apply list_elem_of_In. cbn. tauto.
    + rewrite initialize_keeps; [exact Hr | exact Hinit |].
      apply list_elem_of_In. cbn. tauto.
  - cbn [run hook_calls flat_map]. rewrite IH.
    + destruct (accepts p required e) eqn:Hacc.
      * rewrite (train_accepted _ _ _ _ _
                   (validate_accepts _ _ _ _ Hp Hr Hacc)).
        destruct (_train e wt c (attrs w)) as [r a]. cbn [snd trace].
        now rewrite <- List.app_assoc.
      * destruct (validate_rejects _ _ _ _ Hp Hr Hacc) as [msg Hv].
        now rewrite (train_rejected _ _ _ _ _ _ Hv).
    + rewrite train_keeps_fields; [exact Hp | exact Htrain |].
      apply list_elem_of_In. cbn. tauto.
    + rewrite train_keeps_fields; [exact Hr | exact Htrain |].
      apply list_elem_of_In. cbn. tauto.
Qed.

Lemma run_hook_calls_witness :
  trace (run dqn_initialize dqn_train
           [Initialize; Train batch_4_2 VNone VNone; Train (VInt 5) VNone VNone;
            Train batch_4_3 VNone VNone; Train batch_4 VNone VNone;
            Initialize; Train batch_4_2 (VInt 1) VNone]
           (constructed (VInt 2))) =
  trace (constructed (VInt 2)) ++
  [CallInitialize; CallTrain batch_4_2 VNone VNone; CallInitialize;
   CallTrain batch_4_2 (VInt 1) VNone].
Proof.
  rewrite (run_hook_calls dqn_initialize dqn_train (constructed (VInt 2))
             explorer (Some 2%Z) _ dqn_initialize_keeps_fields
             dqn_train_keeps_fields eq_refl eq_refl).
  reflexivity.
Defined.

(** X10.  The descriptors are stable over the whole life of the agent,
    [initialize] included: after any sequence of [initialize] and [train]
    calls whose hooks leave the base attributes alone, each descriptor
    returns the constructor argument, and no attribute has been assigned
    since construction. *)
Theorem run_keeps_descriptors
    _initialize _train cls ts acts pol cpol tsl dbg sgv w0 calls :
  initialize_keeps_fields _initialize ->
  keeps_fields _train ->
  overridden_members TFAgent cls = [] ->
  let w := run _initialize _train calls
             (__init__ cls ts acts pol cpol tsl dbg sgv w0).2 in
  time_step_spec w = (Ok ts, w) /\
  action_spec w = (Ok acts, w) /\
  policy w = (Ok pol, w) /\
  collect_policy w = (Ok cpol, w) /\
  train_sequence_length w = (Ok tsl, w) /\
  debug_summaries w = (Ok dbg, w) /\
  summarize_grads_and_vars w = (Ok sgv, w) /\
  List.filter is_SetAttr (trace w) =
  List.filter is_SetAttr (trace w0) ++
  [SetAttr "_time_step_spec" ts; SetAttr "_action_spec" acts;
   SetAttr "_policy" pol; SetAttr "_collect_policy" cpol;
   SetAttr "_train_sequence_length" tsl; SetAttr "_debug_summaries" dbg;
   SetAttr "_summarize_grads_and_vars" sgv].
Proof.
  intros Hinit Htrain Hcls w.
  assert (Hget : forall name v,
            In name fields ->
            attrs (__init__ cls ts acts pol cpol tsl dbg sgv w0).2 !! name =
              Some v ->
            getattr name w = (Ok v, w)).
  { intros name v Hname Hv. apply getattr_some. subst w.
    rewrite run_keeps_fields;
      [exact Hv | exact Hinit | exact Htrain | now apply list_elem_of_In]. }
  rewrite (init_ok _ _ _ _ _ _ _ _ _ Hcls) in Hget. cbn [snd attrs] in Hget.
  repeat split;
    try (apply Hget; [cbn; tauto | now simplify_map_eq]).
  subst w. rewrite run_no_SetAttr.
  rewrite (init_ok _ _ _ _ _ _ _ _ _ Hcls). cbn [snd trace].
  rewrite List.filter_app. reflexivity.
Qed.

Lemma run_keeps_descriptors_witness :
  let w := run dqn_initialize dqn_train
             [Initialize; Train batch_4_2 VNone VNone; Initialize;
              Train batch_4_3 VNone VNone]
             (constructed (VInt 2)) in
  policy w = (Ok (VPolicy greedy), w) /\
  debug_summaries w = (Ok (VBool false), w).
Proof.
  destruct (run_keeps_descriptors dqn_initialize dqn_train dqn
              (VNest data_spec) (VNest (Leaf (TensorSpec [])))
              (VPolicy greedy) (VPolicy explorer) (VInt 2) (VBool false)
              (VBool false) fresh
              [Initialize; Train batch_4_2 VNone VNone; Initialize;
               Train batch_4_3 VNone VNone]
              dqn_initialize_keeps_fields dqn_train_keeps_fields eq_refl)
    as (_ & _ & Hpol & _ & _ & Hdbg & _).
  split; [exact Hpol | exact Hdbg].
Defined.
